(** * TrueNAS sensor platform: a shallow embedding of
      [custom_components/truenas/sensor.py] and its verified properties.

    The Python module defines four sensor classes.  Their value
    projections ([native_value], [native_unit_of_measurement]) are pure
    reads of the coordinator's cached record; their actions ([restart],
    [stop], [snapshot], [start]) are coroutines that hand remote procedure
    calls to an executor and log through the module logger.

    The embedding keeps the two layers apart:
    - Python values are a JSON-like inductive type, dictionaries being
      finite maps with string keys;
    - a coroutine is a finite tree of effects (reading the clock, a remote
      call, a log call, raising), and [run] executes such a tree against an
      arbitrary outside world, producing the trace of what was done. *)

From Stdlib Require Import ZArith String Ascii List Lia.
From stdpp Require Import base option gmap strings list fin_maps pretty.

Local Open Scope string_scope.
Local Set Warnings "-register-all".

(* ===================================================================== *)
(** * Python values *)
(* ===================================================================== *)

(** The values that travel through the sensor code: the coordinator's
    cached records and the decoded replies of the remote API.  A float is
    kept as its IEEE-754 bit pattern; the sensor code never computes with
    one. *)
Inductive pyval : Type :=
| PNone
| PBool (b : bool)
| PInt (z : Z)
| PFloat (bits : Z)
| PStr (s : string)
| PList (l : list pyval)
| PDict (d : gmap string pyval).

(** [isinstance(v, list)] and [isinstance(v, dict)]. *)
Definition isinstance_list (v : pyval) : bool :=
  match v with PList _ => true | _ => false end.

Definition isinstance_dict (v : pyval) : bool :=
  match v with PDict _ => true | _ => false end.

(** Truth value of an object, as tested by [if v:] and [a and b]. *)
Definition truthy (v : pyval) : bool :=
  match v with
  | PNone => false
  | PBool b => b
  | PInt z => negb (Z.eqb z 0)
  | PFloat bits => negb (Z.eqb (Z.land bits (Z.ones 63)) 0)
  | PStr s => negb (String.eqb s "")
  | PList l => match l with [] => false | _ => true end
  | PDict d => negb (bool_decide (d = ∅))
  end.

(** [key in d] for a value already known to be a dictionary; the sensor
    code only evaluates it behind an [isinstance(_, dict)] test. *)
Definition contains (v : pyval) (key : string) : bool :=
  match v with
  | PDict d => bool_decide (is_Some (d !! key))
  | _ => false
  end.

(** [d.get(key)]: the value, or [None] when the key is absent. *)
Definition dict_get (v : pyval) (key : string) : pyval :=
  match v with
  | PDict d => default PNone (d !! key)
  | _ => PNone
  end.

(** [v == s] for a string literal [s]: only a string with the same
    characters compares equal to a string. *)
Definition eq_str (v : pyval) (s : string) : bool :=
  match v with
  | PStr s' => String.eqb s' s
  | _ => false
  end.

(** [v in [s1, ..., sn]] for a list of string literals. *)
Definition in_strs (v : pyval) (l : list string) : bool :=
  existsb (eq_str v) l.

(* ===================================================================== *)
(** * Exceptions and the base value sensor *)
(* ===================================================================== *)

(** The exceptions that can leave the sensor code: a failed subscript
    on the cached record, and whatever the API client raises itself. *)
Inductive exn : Type :=
| KeyError (key : string)
| ApiFault (info : string).

(** [d[key]] on the cached record. *)
Definition getitem (d : gmap string pyval) (key : string) : exn + pyval :=
  match d !! key with
  | Some v => inr v
  | None => inl (KeyError key)
  end.

(** Modelled from the spec: the entity description, whose declaration
    lives in the [sensor_types] module outside this file.  It is the
    static descriptor naming the field of the cached record a sensor
    surfaces ([data_attribute]) and the configured unit string, if any;
    these are the two fields the sensor code reads. *)
Record EntityDescription : Type := {
  data_attribute : string;
  native_unit_of_measurement : option string
}.

(** Modelled from the spec: what the entity base class ([TrueNASEntity],
    in the [entity] module outside this file) provides to a sensor, namely
    its descriptor and the coordinator's cached record it is bound to
    ([self._data]), a mapping from field name to value.  The record is the
    coordinator's; the sensor code only reads it, and it is taken as it
    stands when a property or action is invoked. *)
Record sensor : Type := {
  entity_description : EntityDescription;
  _data : gmap string pyval
}.

(** [s[6:]] *)
Definition slice_from_6 (s : string) : string :=
  String.substring 6 (String.length s - 6) s.

Module TrueNASSensor.

(** [return self._data[self.entity_description.data_attribute]] *)
Definition native_value (self : sensor) : exn + pyval :=
  getitem (_data self) (data_attribute (entity_description self)).

(** The unit property.  The result is a Python value, because the dynamic
    branch hands back whatever the record holds under the looked-up
    field. *)
Definition native_unit_of_measurement (self : sensor) : pyval :=
  match native_unit_of_measurement (entity_description self) with
  | Some u =>
      if truthy (PStr u) then
        if String.prefix "data__" u then
          let uom := slice_from_6 u in
          match _data self !! uom with
          | Some v => v
          | None => PStr u
          end
        else PStr u
      else PNone
  | None => PNone
  end.

End TrueNASSensor.

(* ===================================================================== *)
(** * Coroutines as effect trees *)
(* ===================================================================== *)

(** A naive local date and time, as [datetime.now()] returns it. *)
Record datetime : Type := {
  year : N; month : N; day : N;
  hour : N; minute : N; second : N; microsecond : N
}.

Inductive level : Type := ERROR | WARNING.

(** The body of an action method.  [ExecutorJob m a k] stands for
    [await self.hass.async_add_executor_job(self.coordinator.api.query, m, a)]
    followed by [k] on the awaited result; [Log] for a call of
    [_LOGGER.error] or [_LOGGER.warning]; [Now] for [datetime.now()]. *)
Inductive action (A : Type) : Type :=
| Ret (a : A)
| Raise (e : exn)
| Now (k : datetime → action A)
| ExecutorJob (method : string) (args : pyval) (k : pyval → action A)
| Log (lvl : level) (msg : string) (args : list pyval) (k : action A).

Arguments Ret {A} a.
Arguments Raise {A} e.
Arguments Now {A} k.
Arguments ExecutorJob {A} method args k.
Arguments Log {A} lvl msg args k.

Fixpoint action_bind {A B : Type} (f : A → action B) (p : action A) : action B :=
  match p with
  | Ret a => f a
  | Raise e => Raise e
  | Now k => Now (λ t, action_bind f (k t))
  | ExecutorJob m a k => ExecutorJob m a (λ v, action_bind f (k v))
  | Log l msg args k => Log l msg args (action_bind f k)
  end.

#[export] Instance action_mret : MRet action := λ A, @Ret A.
#[export] Instance action_mbind : MBind action := λ A B, @action_bind A B.

(** The primitive steps the sensor code is written with. *)
Definition api_query (method : string) (args : pyval) : action pyval :=
  ExecutorJob method args Ret.

Definition subscript (self : sensor) (key : string) : action pyval :=
  match getitem (_data self) key with
  | inr v => Ret v
  | inl e => Raise e
  end.

Definition log (lvl : level) (msg : string) (args : list pyval) : action () :=
  Log lvl msg args (Ret ()).

Definition datetime_now : action datetime := Now Ret.

(* ===================================================================== *)
(** * Running a coroutine against the outside world *)
(* ===================================================================== *)

(** What the API client hands back for one call: decoded reply data, or
    an exception of its own. *)
Inductive response : Type :=
| Resp (v : pyval)
| Fault (e : exn).

(** The outside world, with a state of type [W]: the remote appliance
    answering [api.query(method, args)] through the API client, and the
    wall clock.  Both are collaborators outside this file and are taken
    as they come: every property below holds for all of them. *)
Record world (W : Type) : Type := World {
  remote : string → pyval → W → response * W;
  clock : W → datetime * W
}.

Arguments World {W} remote clock.
Arguments remote {W} _ method args w.
Arguments clock {W} _ w.

(** What an observer of a run sees, in order. *)
Inductive event : Type :=
| Called (method : string) (args : pyval)
| Logged (lvl : level) (msg : string) (args : list pyval).

Inductive outcome (A : Type) : Type :=
| Returned (a : A)
| Raised (e : exn).

Arguments Returned {A} a.
Arguments Raised {A} e.

Record result (A W : Type) : Type := Result {
  trace : list event;
  outcome_of : outcome A;
  final : W
}.

Arguments Result {A W} trace outcome_of final.
Arguments trace {A W} r.
Arguments outcome_of {A W} r.
Arguments final {A W} r.

Definition after {A W : Type} (ev : event) (r : result A W) : result A W :=
  Result (ev :: trace r) (outcome_of r) (final r).

(** A remote call is observed when it is issued; if the client raises,
    the exception ends the coroutine. *)
Fixpoint run {A W : Type} (env : world W) (p : action A) (w : W) : result A W :=
  match p with
  | Ret a => Result [] (Returned a) w
  | Raise e => Result [] (Raised e) w
  | Now k => let (t, w') := clock env w in run env (k t) w'
  | ExecutorJob m a k =>
      match remote env m a w with
      | (Resp v, w') => after (Called m a) (run env (k v) w')
      | (Fault e, w') => Result [Called m a] (Raised e) w'
      end
  | Log l msg args k => after (Logged l msg args) (run env k w)
  end.

(** The remote calls of a trace, and those among them that change the
    remote system (every operation the sensors use except the
    [cloudsync.query] lookup). *)
Definition calls (tr : list event) : list (string * pyval) :=
  omap (λ ev, match ev with Called m a => Some (m, a) | Logged _ _ _ => None end) tr.

Definition is_lookup (c : string * pyval) : bool := String.eqb (fst c) "cloudsync.query".

Definition mutating_calls (tr : list event) : list (string * pyval) :=
  List.filter (λ c, negb (is_lookup c)) (calls tr).

(* ===================================================================== *)
(** * The uptime sensor *)
(* ===================================================================== *)

Module TrueNASUptimeSensor.

(** [restart]: one executor job, result dropped. *)
Definition restart (self : sensor) : action () :=
  api_query "system.reboot" (PList [PStr "Home Assistant Integration"]);;
  mret ().

(** [stop]: one executor job, result dropped. *)
Definition stop (self : sensor) : action () :=
  api_query "system.shutdown" (PList [PStr "Home Assistant Integration"]);;
  mret ().

End TrueNASUptimeSensor.

(* ===================================================================== *)
(** * The dataset sensor *)
(* ===================================================================== *)

(** [k] zero characters. *)
Fixpoint zeros (k : nat) : string :=
  match k with
  | 0 => ""
  | S k' => String "0" (zeros k')
  end.

(** [n] in decimal, left-padded with zeros to at least [width] digits
    (the [%0<width>d] conversion [isoformat] is built from). *)
Definition zero_pad (width : nat) (n : N) : string :=
  let digits := pretty n in
  zeros (width - String.length digits) +:+ digits.

(** The ranges [datetime] enforces on its fields. *)
Definition valid_datetime (dt : datetime) : Prop :=
  (1 ≤ year dt ≤ 9999 ∧ 1 ≤ month dt ≤ 12 ∧ 1 ≤ day dt ≤ 31 ∧
   hour dt < 24 ∧ minute dt < 60 ∧ second dt < 60 ∧ microsecond dt < 1000000)%N.

(** [dt.isoformat(sep=sep, timespec="microseconds")] for a naive
    [dt]: [YYYY-MM-DD], the separator, [HH:MM:SS.ffffff]. *)
Definition isoformat_microseconds (sep : string) (dt : datetime) : string :=
  zero_pad 4 (year dt) +:+ "-" +:+ zero_pad 2 (month dt) +:+ "-" +:+
  zero_pad 2 (day dt) +:+ sep +:+
  zero_pad 2 (hour dt) +:+ ":" +:+ zero_pad 2 (minute dt) +:+ ":" +:+
  zero_pad 2 (second dt) +:+ "." +:+ zero_pad 6 (microsecond dt).

(** [f"{v}"], that is [str(v)].  A string is rendered as itself and the
    scalars by their literals; how Python prints floats and containers is
    left to [str_compound], on which nothing below depends. *)
Definition format_value (str_compound : pyval → string) (v : pyval) : string :=
  match v with
  | PStr s => s
  | PNone => "None"
  | PBool true => "True"
  | PBool false => "False"
  | PInt z => pretty z
  | PFloat _ | PList _ | PDict _ => str_compound v
  end.

Module TrueNASDatasetSensor.

(** [{"dataset": dataset, "name": name}] *)
Definition snapshot_payload (dataset name : string) : pyval :=
  PDict (<["dataset" := PStr dataset]> (<["name" := PStr name]> ∅)).

(** [isinstance(result, dict) and "error" in result] *)
Definition has_error (result : pyval) : bool :=
  isinstance_dict result && contains result "error".

Definition snapshot (str_compound : pyval → string) (self : sensor) : action () :=
  now ← datetime_now;
  let ts := isoformat_microseconds "_" now in
  name ← subscript self "name";
  let payload :=
    snapshot_payload (format_value str_compound name) ("custom-" +:+ ts) in
  result ← api_query "pool.snapshot.create" payload;
  if has_error result then
    api_query "zfs.snapshot.create" payload;;
    mret ()
  else mret ().

End TrueNASDatasetSensor.

(* ===================================================================== *)
(** * The cloud-sync sensor *)
(* ===================================================================== *)

Module TrueNASClousyncSensor.

(** The lookup filter [[[["id", "=", id]]]]. *)
Definition id_filter (id : pyval) : pyval :=
  PList [PList [PList [PStr "id"; PStr "="; id]]].

(** [jobs[0] if isinstance(jobs, list) and jobs else None]; the subscript
    is only evaluated on a non-empty list. *)
Definition first_job (jobs : pyval) : pyval :=
  if isinstance_list jobs && truthy jobs then
    match jobs with
    | PList (j :: _) => j
    | _ => PNone
    end
  else PNone.

(** [not isinstance(tmp_job, dict) or "job" not in tmp_job] *)
Definition invalid (tmp_job : pyval) : bool :=
  negb (isinstance_dict tmp_job) || negb (contains tmp_job "job").

(** [job_state = tmp_job.get("job")] and
    [state = job_state.get("state") if isinstance(job_state, dict) else None] *)
Definition state_of (tmp_job : pyval) : pyval :=
  let job_state := dict_get tmp_job "job" in
  if isinstance_dict job_state then dict_get job_state "state" else PNone.

(** [state in ["WAITING", "RUNNING"]] *)
Definition active (state : pyval) : bool :=
  in_strs state ["WAITING"; "RUNNING"].

Definition start (self : sensor) : action () :=
  id ← subscript self "id";
  jobs ← api_query "cloudsync.query" (id_filter id);
  let tmp_job := first_job jobs in
  if invalid tmp_job then
    description ← subscript self "description";
    id ← subscript self "id";
    log ERROR "Clousync job %s (%s) invalid" [description; id]
  else
    let state := state_of tmp_job in
    if active state then
      description ← subscript self "description";
      id ← subscript self "id";
      log WARNING "Clousync job %s (%s) is already running" [description; id]
    else
      id ← subscript self "id";
      api_query "cloudsync.sync" (PList [id]);;
      mret ().

Definition stop (self : sensor) : action () :=
  id ← subscript self "id";
  jobs ← api_query "cloudsync.query" (id_filter id);
  let tmp_job := first_job jobs in
  if invalid tmp_job then
    description ← subscript self "description";
    id ← subscript self "id";
    log ERROR "Clousync job %s (%s) invalid" [description; id]
  else
    let state := state_of tmp_job in
    if negb (active state) then
      description ← subscript self "description";
      id ← subscript self "id";
      log WARNING "Clousync job %s (%s) is not running" [description; id]
    else
      id ← subscript self "id";
      api_query "cloudsync.abort" (PList [id]);;
      mret ().

End TrueNASClousyncSensor.

(* ===================================================================== *)
(** * Repeated invocations, and sample entities and worlds *)
(* ===================================================================== *)

(** [n] successive invocations of the same action method, each one
    starting in the world the previous one left. *)
Fixpoint invocations {A W : Type} (env : world W) (p : action A)
    (n : nat) (w : W) : list (result A W) :=
  match n with
  | 0 => []
  | S n' => let r := run env p w in r :: invocations env p n' (final r)
  end.

(** A job record lacking a usable embedded job sub-record, in the words
    of the specification: one that has no mapping under ["job"] to read a
    state from. *)
Definition lacks_usable_job (record : pyval) : bool :=
  match record with
  | PDict d =>
      match d !! "job" with
      | Some (PDict _) => false
      | _ => true
      end
  | _ => true
  end.

Definition sample_instant : datetime :=
  {| year := 2024; month := 1; day := 2;
     hour := 3; minute := 4; second := 5; microsecond := 6 |}.

(** A world without state that answers each remote method with a fixed
    reply and whose clock shows [sample_instant]. *)
Definition answering (reply : string → pyval) : world () :=
  World (λ method _ w, (Resp (reply method), w)) (λ w, (sample_instant, w)).

Definition quota_sensor : sensor :=
  {| entity_description :=
       {| data_attribute := "quota"; native_unit_of_measurement := Some "data__unit" |};
     _data := <["quota" := PInt 5]> (<["unit" := PStr "GiB"]> ∅) |}.

Definition uptime_sensor : sensor :=
  {| entity_description :=
       {| data_attribute := "uptimeEpoch"; native_unit_of_measurement := None |};
     _data := <["uptimeEpoch" := PInt 1700000000]> ∅ |}.

Definition dataset_sensor : sensor :=
  {| entity_description :=
       {| data_attribute := "used_gb"; native_unit_of_measurement := Some "GiB" |};
     _data := <["name" := PStr "tank/data"]> (<["used_gb" := PInt 12]> ∅) |}.

Definition cloudsync_sensor : sensor :=
  {| entity_description :=
       {| data_attribute := "state"; native_unit_of_measurement := None |};
     _data := <["id" := PInt 3]> (<["description" := PStr "backup"]>
              (<["state" := PStr "SUCCESS"]> ∅)) |}.

(** Lookup replies: a job in the given state, and a job that never ran
    (its ["job"] field is null). *)
Definition job_in_state (state : string) : pyval :=
  PList [PDict (<["id" := PInt 3]>
                (<["job" := PDict (<["state" := PStr state]> ∅)]> ∅))].

Definition job_never_run : pyval :=
  PList [PDict (<["id" := PInt 3]> (<["job" := PNone]> ∅))].

Definition in_band_error : pyval :=
  PDict (<["error" := PStr "method not found"]> ∅).

(* ===================================================================== *)
(** * Further observations and sample worlds *)
(* ===================================================================== *)

(** The log calls of a trace. *)
Definition log_calls (tr : list event) : list (level * string * list pyval) :=
  omap (λ ev, match ev with
              | Logged l msg args => Some (l, msg, args)
              | Called _ _ => None
              end) tr.

(** One action method after another, as two service calls in a row. *)
Definition and_then {A B : Type} (p : action A) (q : action B) : action B :=
  p ≫= λ _, q.

(** A world without state in which each remote method has a fixed
    response, possibly an exception of the client. *)
Definition responding (reaction : string → response) : world () :=
  World (λ method _ w, (reaction method, w)) (λ w, (sample_instant, w)).

(** A remote side that tracks one cloud-sync job: the state says
    whether the job is running; [cloudsync.sync] sets it running,
    [cloudsync.abort] stops it, and the lookup reports it. *)
Definition tracking_job : world bool :=
  World (λ (method : string) (_ : pyval) (running : bool),
           if String.eqb method "cloudsync.query" then
             (Resp (job_in_state (if running then "RUNNING" else "SUCCESS")), running)
           else if String.eqb method "cloudsync.sync" then (Resp (PInt 7), true)
           else if String.eqb method "cloudsync.abort" then (Resp (PBool true), false)
           else (Resp PNone, running))
        (λ running : bool, (sample_instant, running)).

(** A cloud-sync sensor whose record has lost its description, and one
    without any field. *)
Definition undescribed_sensor : sensor :=
  {| entity_description := entity_description cloudsync_sensor;
     _data := <["id" := PInt 3]> ∅ |}.

Definition blank_sensor : sensor :=
  {| entity_description := entity_description cloudsync_sensor; _data := ∅ |}.

(* ===================================================================== *)
(** * General facts about the embedding *)
(* ===================================================================== *)

Section Semantics.
Context {W : Type} (env : world W).

(** Sequencing: the second part runs in the world the first part left,
    unless the first part raised. *)
Lemma run_bind {A B : Type} (p : action A) (f : A → action B) (w : W) :
  run env (p ≫= f) w =
  match outcome_of (run env p w) with
  | Returned a =>
      let r := run env (f a) (final (run env p w)) in
      Result (trace (run env p w) ++ trace r) (outcome_of r) (final r)
  | Raised e => Result (trace (run env p w)) (Raised e) (final (run env p w))
  end.
Proof.
  revert w. induction p as [a|e|k IH|m a k IH|l msg args k IH]; intros w.
  - simpl. by destruct (run env (f a) w).
  - done.
  - simpl. destruct (clock env w) as [t w']. apply IH.
  - simpl. destruct (remote env m a w) as [[v|e] w']; [|done].
    change (action_bind f (k v)) with (k v ≫= f). rewrite IH.
    unfold after. simpl. by destruct (outcome_of (run env (k v) w')).
  - simpl. change (action_bind f k) with (k ≫= f). rewrite IH.
    unfold after. simpl. by destruct (outcome_of (run env k w)).
Qed.

(** A remote call that answers, and one that raises. *)
Lemma run_query_resp {A : Type} m a (k : pyval → action A) w v w' :
  remote env m a w = (Resp v, w') →
  run env (api_query m a ≫= k) w = after (Called m a) (run env (k v) w').
Proof. intros H. simpl. by rewrite H. Qed.

Lemma run_query_fault {A : Type} m a (k : pyval → action A) w e w' :
  remote env m a w = (Fault e, w') →
  run env (api_query m a ≫= k) w = Result [Called m a] (Raised e) w'.
Proof. intros H. simpl. by rewrite H. Qed.

(** Subscripts of the cached record. *)
Lemma run_subscript_some {A : Type} self key (k : pyval → action A) w v :
  _data self !! key = Some v →
  run env (subscript self key ≫= k) w = run env (k v) w.
Proof. intros H. unfold subscript, getitem. by rewrite H. Qed.

Lemma run_subscript_none {A : Type} self key (k : pyval → action A) w :
  _data self !! key = None →
  run env (subscript self key ≫= k) w = Result [] (Raised (KeyError key)) w.
Proof. intros H. unfold subscript, getitem. by rewrite H. Qed.

End Semantics.

(** The tests of the sensor code, in terms of the data they inspect. *)
Lemma active_iff (state : pyval) :
  TrueNASClousyncSensor.active state = true ↔
  state = PStr "WAITING" ∨ state = PStr "RUNNING".
Proof.
  unfold TrueNASClousyncSensor.active, in_strs, eq_str. simpl. split.
  - destruct state as [| | | |s| |]; try discriminate.
    rewrite !orb_true_iff, !String.eqb_eq.
    intros [H|[H|H]]; [left|right|discriminate]; by rewrite H.
  - intros [->| ->]; reflexivity.
Qed.

Lemma active_false_iff (state : pyval) :
  TrueNASClousyncSensor.active state = false ↔
  state ≠ PStr "WAITING" ∧ state ≠ PStr "RUNNING".
Proof.
  rewrite <-not_true_iff_false, active_iff. tauto.
Qed.

Lemma has_error_iff (result : pyval) :
  TrueNASDatasetSensor.has_error result = true ↔
  ∃ d, result = PDict d ∧ is_Some (d !! "error").
Proof.
  unfold TrueNASDatasetSensor.has_error, isinstance_dict, contains. split.
  - destruct result as [| | | | | |d]; try discriminate. simpl.
    rewrite bool_decide_eq_true. eauto.
  - intros (d & -> & H). simpl. by rewrite bool_decide_eq_true.
Qed.

(** A lookup reply is unusable for the code when its first element cannot
    be taken, is not a dictionary, or is a dictionary without a ["job"]
    key. *)
Lemma invalid_first_job_iff (jobs : pyval) :
  TrueNASClousyncSensor.invalid (TrueNASClousyncSensor.first_job jobs) = false ↔
  ∃ rec rest, jobs = PList (PDict rec :: rest) ∧ is_Some (rec !! "job").
Proof.
  unfold TrueNASClousyncSensor.invalid, TrueNASClousyncSensor.first_job. split.
  - destruct jobs as [| | | | |[|j rest]|]; try discriminate. simpl.
    destruct j as [| | | | | |rec]; try discriminate. simpl.
    rewrite negb_false_iff, bool_decide_eq_true. eauto.
  - intros (rec & rest & -> & H). simpl.
    by rewrite negb_false_iff, bool_decide_eq_true.
Qed.

(** The state the code extracts from a job record. *)
Lemma state_of_job (rec job : gmap string pyval) :
  rec !! "job" = Some (PDict job) →
  TrueNASClousyncSensor.state_of (PDict rec) = default PNone (job !! "state").
Proof. intros H. unfold TrueNASClousyncSensor.state_of. simpl. by rewrite H. Qed.

Lemma state_of_no_mapping (rec : gmap string pyval) (j : pyval) :
  rec !! "job" = Some j → isinstance_dict j = false →
  TrueNASClousyncSensor.state_of (PDict rec) = PNone.
Proof.
  intros H Hj. unfold TrueNASClousyncSensor.state_of. simpl. rewrite H. simpl.
  by rewrite Hj.
Qed.

(** The dynamic-unit prefix. *)
Lemma prefix_data_app (f : string) : String.prefix "data__" ("data__" +:+ f) = true.
Proof. simpl. by destruct f. Qed.

Lemma substring_all (f : string) : String.substring 0 (String.length f) f = f.
Proof. induction f as [|c f IH]; simpl; [done|]. by rewrite IH. Qed.

Lemma slice_data_app (f : string) : slice_from_6 ("data__" +:+ f) = f.
Proof. unfold slice_from_6. simpl. rewrite Nat.sub_0_r. apply substring_all. Qed.

Lemma prefix_inv (p u : string) :
  String.prefix p u = true → ∃ f, u = p +:+ f.
Proof.
  revert u. induction p as [|c p IH]; intros u H.
  - by exists u.
  - destruct u as [|c' u]; simpl in H; [discriminate|].
    destruct (ascii_dec c c') as [Hc|]; [|discriminate].
    destruct (IH _ H) as [f Hf]. exists f. by rewrite Hc, Hf.
Qed.

(* ===================================================================== *)
(** * The base value sensor *)
(* ===================================================================== *)

(** C8. When the cached record holds the configured [data_attribute]
    field, [native_value] is exactly the value stored there; when the
    field is absent, the read ends in a [KeyError] for that field, which
    is the result of the property itself (nothing catches it). *)
Theorem native_value_verbatim (self : sensor) :
  let F := data_attribute (entity_description self) in
  (∀ v, _data self !! F = Some v → TrueNASSensor.native_value self = inr v) ∧
  (_data self !! F = None → TrueNASSensor.native_value self = inl (KeyError F)).
Proof.
  unfold TrueNASSensor.native_value, getitem. simpl.
  split; [intros v H|intros H]; by rewrite H.
Qed.

Lemma native_value_verbatim_witness :
  TrueNASSensor.native_value quota_sensor = inr (PInt 5) ∧
  TrueNASSensor.native_value
    {| entity_description := entity_description quota_sensor; _data := ∅ |}
  = inl (KeyError "quota").
Proof.
  split.
  - apply (proj1 (native_value_verbatim quota_sensor)). reflexivity.
  - apply (proj2 (native_value_verbatim
      {| entity_description := entity_description quota_sensor; _data := ∅ |})).
    reflexivity.
Defined.

(** C7. A configured (non-empty) unit string that starts with [data__]
    names a field by its remainder: the unit is that field's value when the
    record has the field, and the configured string itself, prefix
    included, when it has not.  A configured string without the prefix is
    the unit as it stands.  With nothing configured (no string, or the
    empty one) the unit is [None]. *)
Theorem native_unit_of_measurement_lookup (self : sensor) :
  let configured := native_unit_of_measurement (entity_description self) in
  (∀ f v, configured = Some ("data__" +:+ f) → _data self !! f = Some v →
     TrueNASSensor.native_unit_of_measurement self = v) ∧
  (∀ f, configured = Some ("data__" +:+ f) → _data self !! f = None →
     TrueNASSensor.native_unit_of_measurement self = PStr ("data__" +:+ f)) ∧
  (∀ u, configured = Some u → u ≠ "" → (∀ f, u ≠ "data__" +:+ f) →
     TrueNASSensor.native_unit_of_measurement self = PStr u) ∧
  (configured = None ∨ configured = Some "" →
     TrueNASSensor.native_unit_of_measurement self = PNone).
Proof.
  unfold TrueNASSensor.native_unit_of_measurement. simpl.
  repeat split.
  - intros f v -> Hf. cbn [truthy]. change (("data__" +:+ f) =? "")%string with false.
    cbn [negb]. by rewrite prefix_data_app, slice_data_app, Hf.
  - intros f -> Hf. cbn [truthy]. change (("data__" +:+ f) =? "")%string with false.
    cbn [negb]. by rewrite prefix_data_app, slice_data_app, Hf.
  - intros u -> Hne Hpre. cbn [truthy].
    destruct (String.eqb_spec u "") as [|_]; [done|]. cbn [negb].
    destruct (String.prefix "data__" u) eqn:Hp; [|done].
    destruct (prefix_inv _ _ Hp) as [f Hf]. by destruct (Hpre f).
  - by intros [-> | ->].
Qed.

Lemma native_unit_of_measurement_lookup_witness :
  TrueNASSensor.native_unit_of_measurement quota_sensor = PStr "GiB" ∧
  TrueNASSensor.native_unit_of_measurement
    {| entity_description := entity_description quota_sensor; _data := ∅ |}
  = PStr "data__unit" ∧
  TrueNASSensor.native_unit_of_measurement dataset_sensor = PStr "GiB" ∧
  TrueNASSensor.native_unit_of_measurement uptime_sensor = PNone.
Proof.
  split; [|split; [|split]].
  - apply (proj1 (native_unit_of_measurement_lookup quota_sensor) "unit");
      reflexivity.
  - apply (proj1 (proj2 (native_unit_of_measurement_lookup
      {| entity_description := entity_description quota_sensor; _data := ∅ |}))
      "unit"); reflexivity.
  - apply (proj1 (proj2 (proj2 (native_unit_of_measurement_lookup dataset_sensor)))).
    + reflexivity.
    + discriminate.
    + intros f. discriminate.
  - apply (proj2 (proj2 (proj2 (native_unit_of_measurement_lookup uptime_sensor)))).
    left. reflexivity.
Defined.

(* ===================================================================== *)
(** * The uptime sensor *)
(* ===================================================================== *)

(** C9. [restart] issues the single remote call [system.reboot] and the
    uptime sensor's [stop] the single call [system.shutdown], both with the
    one-element argument list holding the reason string
    ["Home Assistant Integration"].  The reply is not looked at: whatever
    value comes back, the run is the same and returns. *)
Theorem uptime_restart_stop_single_call {W : Type} (env : world W)
    (self : sensor) (w : W) :
  let reason := PList [PStr "Home Assistant Integration"] in
  trace (run env (TrueNASUptimeSensor.restart self) w)
    = [Called "system.reboot" reason] ∧
  trace (run env (TrueNASUptimeSensor.stop self) w)
    = [Called "system.shutdown" reason] ∧
  (∀ v w', remote env "system.reboot" reason w = (Resp v, w') →
     run env (TrueNASUptimeSensor.restart self) w
       = Result [Called "system.reboot" reason] (Returned ()) w') ∧
  (∀ v w', remote env "system.shutdown" reason w = (Resp v, w') →
     run env (TrueNASUptimeSensor.stop self) w
       = Result [Called "system.shutdown" reason] (Returned ()) w').
Proof.
  unfold TrueNASUptimeSensor.restart, TrueNASUptimeSensor.stop. simpl.
  split; [|split; [|split]].
  - by destruct (remote env "system.reboot" _ w) as [[v|e] w'].
  - by destruct (remote env "system.shutdown" _ w) as [[v|e] w'].
  - intros v w' H. by rewrite H.
  - intros v w' H. by rewrite H.
Qed.

Lemma uptime_restart_stop_single_call_witness :
  run (answering (λ _, PBool true)) (TrueNASUptimeSensor.restart uptime_sensor) ()
    = Result [Called "system.reboot" (PList [PStr "Home Assistant Integration"])]
        (Returned ()) () ∧
  run (answering (λ _, PNone)) (TrueNASUptimeSensor.stop uptime_sensor) ()
    = Result [Called "system.shutdown" (PList [PStr "Home Assistant Integration"])]
        (Returned ()) ().
Proof.
  split.
  - apply (proj1 (proj2 (proj2 (uptime_restart_stop_single_call
      (answering (λ _, PBool true)) uptime_sensor ()))) (PBool true)).
    reflexivity.
  - apply (proj2 (proj2 (proj2 (uptime_restart_stop_single_call
      (answering (λ _, PNone)) uptime_sensor ()))) PNone).
    reflexivity.
Defined.

(* ===================================================================== *)
(** * The cloud-sync sensor: the three branches of [start] and [stop] *)
(* ===================================================================== *)

Section Branches.
Context {W : Type} (env : world W) (self : sensor).
Context (i : pyval) (w w' : W) (jobs : pyval).
Hypothesis Hid : _data self !! "id" = Some i.
Hypothesis Hq :
  remote env "cloudsync.query" (TrueNASClousyncSensor.id_filter i) w
  = (Resp jobs, w').

(** Both methods begin alike: the lookup, then the test of its reply. *)
Lemma start_after_lookup :
  run env (TrueNASClousyncSensor.start self) w =
  after (Called "cloudsync.query" (TrueNASClousyncSensor.id_filter i)) (run env
    (if TrueNASClousyncSensor.invalid (TrueNASClousyncSensor.first_job jobs) then
       description ← subscript self "description";
       id ← subscript self "id";
       log ERROR "Clousync job %s (%s) invalid" [description; id]
     else if TrueNASClousyncSensor.active
               (TrueNASClousyncSensor.state_of (TrueNASClousyncSensor.first_job jobs)) then
       description ← subscript self "description";
       id ← subscript self "id";
       log WARNING "Clousync job %s (%s) is already running" [description; id]
     else
       id ← subscript self "id";
       api_query "cloudsync.sync" (PList [id]);; mret ()) w').
Proof.
  unfold TrueNASClousyncSensor.start.
  rewrite (run_subscript_some _ _ _ _ _ _ Hid).
  by rewrite (run_query_resp _ _ _ _ _ _ _ Hq).
Qed.

Lemma stop_after_lookup :
  run env (TrueNASClousyncSensor.stop self) w =
  after (Called "cloudsync.query" (TrueNASClousyncSensor.id_filter i)) (run env
    (if TrueNASClousyncSensor.invalid (TrueNASClousyncSensor.first_job jobs) then
       description ← subscript self "description";
       id ← subscript self "id";
       log ERROR "Clousync job %s (%s) invalid" [description; id]
     else if negb (TrueNASClousyncSensor.active
               (TrueNASClousyncSensor.state_of (TrueNASClousyncSensor.first_job jobs))) then
       description ← subscript self "description";
       id ← subscript self "id";
       log WARNING "Clousync job %s (%s) is not running" [description; id]
     else
       id ← subscript self "id";
       api_query "cloudsync.abort" (PList [id]);; mret ()) w').
Proof.
  unfold TrueNASClousyncSensor.stop.
  rewrite (run_subscript_some _ _ _ _ _ _ Hid).
  by rewrite (run_query_resp _ _ _ _ _ _ _ Hq).
Qed.

(** A log branch: with the description at hand the message is logged and
    the method returns. *)
Lemma run_log_branch (d : pyval) (lvl : level) (msg : string) :
  _data self !! "description" = Some d →
  run env (description ← subscript self "description";
           id ← subscript self "id";
           log lvl msg [description; id]) w'
  = Result [Logged lvl msg [d; i]] (Returned ()) w'.
Proof.
  intros Hd.
  rewrite (run_subscript_some _ _ _ _ _ _ Hd).
  by rewrite (run_subscript_some _ _ _ _ _ _ Hid).
Qed.

(** Without it the branch ends in a [KeyError] and does nothing else. *)
Lemma run_log_branch_no_description (lvl : level) (msg : string) :
  _data self !! "description" = None →
  run env (description ← subscript self "description";
           id ← subscript self "id";
           log lvl msg [description; id]) w'
  = Result [] (Raised (KeyError "description")) w'.
Proof. intros Hd. by rewrite (run_subscript_none _ _ _ _ _ Hd). Qed.

(** The mutating branch: exactly the one call, whatever it answers. *)
Lemma run_mutation_branch (method : string) :
  trace (run env (id ← subscript self "id";
                  api_query method (PList [id]);; mret ()) w')
  = [Called method (PList [i])].
Proof.
  rewrite (run_subscript_some _ _ _ _ _ _ Hid). simpl.
  by destruct (remote env method _ w') as [[v|e] w''].
Qed.

End Branches.

Section CloudsyncRuns.
Context {W : Type} (env : world W) (self : sensor).
Context (i d : pyval) (w w' : W) (jobs : pyval).
Hypothesis Hid : _data self !! "id" = Some i.
Hypothesis Hd : _data self !! "description" = Some d.
Hypothesis Hq :
  remote env "cloudsync.query" (TrueNASClousyncSensor.id_filter i) w
  = (Resp jobs, w').

Lemma start_run_invalid :
  TrueNASClousyncSensor.invalid (TrueNASClousyncSensor.first_job jobs) = true →
  run env (TrueNASClousyncSensor.start self) w
  = Result [Called "cloudsync.query" (TrueNASClousyncSensor.id_filter i);
            Logged ERROR "Clousync job %s (%s) invalid" [d; i]]
      (Returned ()) w'.
Proof.
  intros Hinv. rewrite (start_after_lookup env self i w w' jobs Hid Hq), Hinv.
  by rewrite (run_log_branch env self i w' Hid d _ _ Hd).
Qed.

Lemma stop_run_invalid :
  TrueNASClousyncSensor.invalid (TrueNASClousyncSensor.first_job jobs) = true →
  run env (TrueNASClousyncSensor.stop self) w
  = Result [Called "cloudsync.query" (TrueNASClousyncSensor.id_filter i);
            Logged ERROR "Clousync job %s (%s) invalid" [d; i]]
      (Returned ()) w'.
Proof.
  intros Hinv. rewrite (stop_after_lookup env self i w w' jobs Hid Hq), Hinv.
  by rewrite (run_log_branch env self i w' Hid d _ _ Hd).
Qed.

Lemma start_run_active :
  TrueNASClousyncSensor.invalid (TrueNASClousyncSensor.first_job jobs) = false →
  TrueNASClousyncSensor.active
    (TrueNASClousyncSensor.state_of (TrueNASClousyncSensor.first_job jobs)) = true →
  run env (TrueNASClousyncSensor.start self) w
  = Result [Called "cloudsync.query" (TrueNASClousyncSensor.id_filter i);
            Logged WARNING "Clousync job %s (%s) is already running" [d; i]]
      (Returned ()) w'.
Proof.
  intros Hinv Hact.
  rewrite (start_after_lookup env self i w w' jobs Hid Hq), Hinv, Hact.
  by rewrite (run_log_branch env self i w' Hid d _ _ Hd).
Qed.

Lemma stop_run_idle :
  TrueNASClousyncSensor.invalid (TrueNASClousyncSensor.first_job jobs) = false →
  TrueNASClousyncSensor.active
    (TrueNASClousyncSensor.state_of (TrueNASClousyncSensor.first_job jobs)) = false →
  run env (TrueNASClousyncSensor.stop self) w
  = Result [Called "cloudsync.query" (TrueNASClousyncSensor.id_filter i);
            Logged WARNING "Clousync job %s (%s) is not running" [d; i]]
      (Returned ()) w'.
Proof.
  intros Hinv Hact.
  rewrite (stop_after_lookup env self i w w' jobs Hid Hq), Hinv, Hact.
  cbn [negb]. by rewrite (run_log_branch env self i w' Hid d _ _ Hd).
Qed.

End CloudsyncRuns.

Section CloudsyncMutations.
Context {W : Type} (env : world W) (self : sensor).
Context (i : pyval) (w w' : W) (jobs : pyval).
Hypothesis Hid : _data self !! "id" = Some i.
Hypothesis Hq :
  remote env "cloudsync.query" (TrueNASClousyncSensor.id_filter i) w
  = (Resp jobs, w').

Lemma start_trace_idle :
  TrueNASClousyncSensor.invalid (TrueNASClousyncSensor.first_job jobs) = false →
  TrueNASClousyncSensor.active
    (TrueNASClousyncSensor.state_of (TrueNASClousyncSensor.first_job jobs)) = false →
  trace (run env (TrueNASClousyncSensor.start self) w)
  = [Called "cloudsync.query" (TrueNASClousyncSensor.id_filter i);
     Called "cloudsync.sync" (PList [i])].
Proof.
  intros Hinv Hact.
  rewrite (start_after_lookup env self i w w' jobs Hid Hq), Hinv, Hact.
  unfold after. cbn [trace].
  by rewrite (run_mutation_branch env self i w' Hid).
Qed.

Lemma stop_trace_active :
  TrueNASClousyncSensor.invalid (TrueNASClousyncSensor.first_job jobs) = false →
  TrueNASClousyncSensor.active
    (TrueNASClousyncSensor.state_of (TrueNASClousyncSensor.first_job jobs)) = true →
  trace (run env (TrueNASClousyncSensor.stop self) w)
  = [Called "cloudsync.query" (TrueNASClousyncSensor.id_filter i);
     Called "cloudsync.abort" (PList [i])].
Proof.
  intros Hinv Hact.
  rewrite (stop_after_lookup env self i w w' jobs Hid Hq), Hinv, Hact.
  unfold after. cbn [trace negb].
  by rewrite (run_mutation_branch env self i w' Hid).
Qed.

End CloudsyncMutations.

(** A reply whose first element is a dictionary with a ["job"] key passes
    the validity test, and the state read from it is that of the record. *)
Lemma wellformed_first_job (rec : gmap string pyval) (rest : list pyval) :
  is_Some (rec !! "job") →
  TrueNASClousyncSensor.first_job (PList (PDict rec :: rest)) = PDict rec ∧
  TrueNASClousyncSensor.invalid (PDict rec) = false.
Proof.
  intros H. split; [done|].
  unfold TrueNASClousyncSensor.invalid. simpl.
  by rewrite negb_false_iff, bool_decide_eq_true.
Qed.

(** The replies the code has no job record to read from. *)
Lemma unusable_reply_invalid (jobs : pyval) :
  isinstance_list jobs = false ∨ jobs = PList [] ∨
  (∃ j rest, jobs = PList (j :: rest) ∧
     (isinstance_dict j = false ∨ ∃ rec, j = PDict rec ∧ rec !! "job" = None)) →
  TrueNASClousyncSensor.invalid (TrueNASClousyncSensor.first_job jobs) = true.
Proof.
  unfold TrueNASClousyncSensor.invalid, TrueNASClousyncSensor.first_job.
  intros [H|[->|(j & rest & -> & [H|(rec & -> & H)])]].
  - by rewrite H.
  - done.
  - simpl. by rewrite H.
  - simpl. rewrite H. by rewrite bool_decide_eq_false_2 by (by intros [? ?]).
Qed.

(* ===================================================================== *)
(** * The cloud-sync sensor: start and stop *)
(* ===================================================================== *)

(** C1. Let the fresh lookup of [start] return a job record with a
    ["job"] entry.  If the state read from it is ["WAITING"] or
    ["RUNNING"], no mutating call is issued, and with the description at
    hand for the message [start] logs the already-running warning and
    returns.  For every other state the lookup is followed by exactly one
    call, [cloudsync.sync] with the one-element list holding the job
    identifier. *)
Theorem start_guards_active_job {W : Type} (env : world W) (self : sensor)
    (i : pyval) (w w' : W) (rec : gmap string pyval) (rest : list pyval) :
  _data self !! "id" = Some i →
  remote env "cloudsync.query" (TrueNASClousyncSensor.id_filter i) w
    = (Resp (PList (PDict rec :: rest)), w') →
  is_Some (rec !! "job") →
  let state := TrueNASClousyncSensor.state_of (PDict rec) in
  let r := run env (TrueNASClousyncSensor.start self) w in
  (state = PStr "WAITING" ∨ state = PStr "RUNNING" →
     mutating_calls (trace r) = [] ∧
     ∀ d, _data self !! "description" = Some d →
       r = Result [Called "cloudsync.query" (TrueNASClousyncSensor.id_filter i);
                   Logged WARNING "Clousync job %s (%s) is already running" [d; i]]
             (Returned ()) w') ∧
  (state ≠ PStr "WAITING" ∧ state ≠ PStr "RUNNING" →
     trace r = [Called "cloudsync.query" (TrueNASClousyncSensor.id_filter i);
                Called "cloudsync.sync" (PList [i])]
     ∧ mutating_calls (trace r) = [("cloudsync.sync", PList [i])]).
Proof.
  intros Hid Hq Hjob state r.
  destruct (wellformed_first_job rec rest Hjob) as [Hfirst Hinv].
  split.
  - intros Hact. apply active_iff in Hact. split.
    + unfold r. rewrite (start_after_lookup env self i w w' _ Hid Hq).
      unfold state in Hact. rewrite Hfirst, Hinv, Hact.
      destruct (_data self !! "description") as [d|] eqn:Hd.
      * by rewrite (run_log_branch env self i w' Hid d _ _ Hd).
      * by rewrite (run_log_branch_no_description env self w' _ _ Hd).
    + intros d Hd.
      apply (start_run_active env self i d w w' _ Hid Hd Hq); by rewrite Hfirst.
  - intros Hidle. apply active_false_iff in Hidle.
    assert (trace r =
      [Called "cloudsync.query" (TrueNASClousyncSensor.id_filter i);
       Called "cloudsync.sync" (PList [i])]) as ->; [|done].
    apply (start_trace_idle env self i w w' _ Hid Hq); by rewrite Hfirst.
Qed.

Lemma start_guards_active_job_witness :
  run (answering (λ _, job_in_state "RUNNING"))
      (TrueNASClousyncSensor.start cloudsync_sensor) ()
    = Result [Called "cloudsync.query" (TrueNASClousyncSensor.id_filter (PInt 3));
              Logged WARNING "Clousync job %s (%s) is already running"
                [PStr "backup"; PInt 3]]
        (Returned ()) ()
  ∧ trace (run (answering (λ _, job_in_state "SUCCESS"))
             (TrueNASClousyncSensor.start cloudsync_sensor) ())
    = [Called "cloudsync.query" (TrueNASClousyncSensor.id_filter (PInt 3));
       Called "cloudsync.sync" (PList [PInt 3])].
Proof.
  split.
  - refine (proj2 (proj1 (start_guards_active_job
      (answering (λ _, job_in_state "RUNNING")) cloudsync_sensor
      (PInt 3) () () _ [] _ _ _) _) (PStr "backup") _).
    + reflexivity.
    + reflexivity.
    + eexists. reflexivity.
    + right. reflexivity.
    + reflexivity.
  - refine (proj1 (proj2 (start_guards_active_job
      (answering (λ _, job_in_state "SUCCESS")) cloudsync_sensor
      (PInt 3) () () _ [] _ _ _) _)).
    + reflexivity.
    + reflexivity.
    + eexists. reflexivity.
    + split; discriminate.
Defined.

(** C4. When the fresh lookup of [stop] returns a job record with a
    ["job"] entry whose state is ["WAITING"] or ["RUNNING"], the lookup
    is followed by exactly one call, [cloudsync.abort] with the
    one-element list holding the job identifier. *)
Theorem stop_aborts_active_job {W : Type} (env : world W) (self : sensor)
    (i : pyval) (w w' : W) (rec : gmap string pyval) (rest : list pyval) :
  _data self !! "id" = Some i →
  remote env "cloudsync.query" (TrueNASClousyncSensor.id_filter i) w
    = (Resp (PList (PDict rec :: rest)), w') →
  is_Some (rec !! "job") →
  TrueNASClousyncSensor.state_of (PDict rec) = PStr "WAITING" ∨
  TrueNASClousyncSensor.state_of (PDict rec) = PStr "RUNNING" →
  let r := run env (TrueNASClousyncSensor.stop self) w in
  trace r = [Called "cloudsync.query" (TrueNASClousyncSensor.id_filter i);
             Called "cloudsync.abort" (PList [i])]
  ∧ mutating_calls (trace r) = [("cloudsync.abort", PList [i])].
Proof.
  intros Hid Hq Hjob Hact r. apply active_iff in Hact.
  destruct (wellformed_first_job rec rest Hjob) as [Hfirst Hinv].
  assert (trace r =
    [Called "cloudsync.query" (TrueNASClousyncSensor.id_filter i);
     Called "cloudsync.abort" (PList [i])]) as ->; [|done].
  apply (stop_trace_active env self i w w' _ Hid Hq); by rewrite Hfirst.
Qed.

Lemma stop_aborts_active_job_witness :
  trace (run (answering (λ _, job_in_state "WAITING"))
           (TrueNASClousyncSensor.stop cloudsync_sensor) ())
    = [Called "cloudsync.query" (TrueNASClousyncSensor.id_filter (PInt 3));
       Called "cloudsync.abort" (PList [PInt 3])].
Proof.
  refine (proj1 (stop_aborts_active_job
    (answering (λ _, job_in_state "WAITING")) cloudsync_sensor
    (PInt 3) () () _ [] _ _ _ _)).
  - reflexivity.
  - reflexivity.
  - eexists. reflexivity.
  - left. reflexivity.
Defined.

(** C10. Whatever value the lookup returns that has no first element
    which is a mapping (a value that is not a list, an empty list, or a
    list whose first element is not a mapping), [start] and [stop] of a
    sensor whose record holds ["id"] and ["description"] do not raise:
    each logs the invalid-job error and returns, as when no job matched. *)
Theorem start_stop_total_on_any_reply {W : Type} (env : world W)
    (self : sensor) (i d : pyval) (w w' : W) (jobs : pyval) :
  _data self !! "id" = Some i →
  _data self !! "description" = Some d →
  remote env "cloudsync.query" (TrueNASClousyncSensor.id_filter i) w
    = (Resp jobs, w') →
  isinstance_list jobs = false ∨ jobs = PList [] ∨
    (∃ j rest, jobs = PList (j :: rest) ∧ isinstance_dict j = false) →
  let logged :=
    Result [Called "cloudsync.query" (TrueNASClousyncSensor.id_filter i);
            Logged ERROR "Clousync job %s (%s) invalid" [d; i]]
      (Returned ()) w' in
  run env (TrueNASClousyncSensor.start self) w = logged ∧
  run env (TrueNASClousyncSensor.stop self) w = logged.
Proof.
  intros Hid Hd Hq Hjobs logged.
  assert (TrueNASClousyncSensor.invalid (TrueNASClousyncSensor.first_job jobs)
          = true) as Hinv.
  { apply unusable_reply_invalid.
    destruct Hjobs as [H|[H|(j & rest & H & Hj)]]; eauto 8. }
  split.
  - by apply (start_run_invalid env self i d w w' jobs).
  - by apply (stop_run_invalid env self i d w w' jobs).
Qed.

Lemma start_stop_total_on_any_reply_witness :
  run (answering (λ _, in_band_error))
      (TrueNASClousyncSensor.start cloudsync_sensor) ()
    = Result [Called "cloudsync.query" (TrueNASClousyncSensor.id_filter (PInt 3));
              Logged ERROR "Clousync job %s (%s) invalid" [PStr "backup"; PInt 3]]
        (Returned ()) ()
  ∧ run (answering (λ _, PList [PNone]))
      (TrueNASClousyncSensor.stop cloudsync_sensor) ()
    = Result [Called "cloudsync.query" (TrueNASClousyncSensor.id_filter (PInt 3));
              Logged ERROR "Clousync job %s (%s) invalid" [PStr "backup"; PInt 3]]
        (Returned ()) ().
Proof.
  split.
  - refine (proj1 (start_stop_total_on_any_reply
      (answering (λ _, in_band_error)) cloudsync_sensor
      (PInt 3) (PStr "backup") () () in_band_error _ _ _ _)).
    + reflexivity.
    + reflexivity.
    + reflexivity.
    + left. reflexivity.
  - refine (proj2 (start_stop_total_on_any_reply
      (answering (λ _, PList [PNone])) cloudsync_sensor
      (PInt 3) (PStr "backup") () () (PList [PNone]) _ _ _ _)).
    + reflexivity.
    + reflexivity.
    + reflexivity.
    + right. right. exists PNone, []. split; reflexivity.
Defined.

(** C2, counterexample to the specification's wording: a job record
    whose ["job"] field is null has no usable embedded job sub-record, yet
    [start] does not log an error for it; it issues [cloudsync.sync]. *)
Lemma start_null_job_counterexample :
  lacks_usable_job (PDict (<["id" := PInt 3]> (<["job" := PNone]> ∅))) = true ∧
  run (answering (λ _, job_never_run))
      (TrueNASClousyncSensor.start cloudsync_sensor) ()
    = Result [Called "cloudsync.query" (TrueNASClousyncSensor.id_filter (PInt 3));
              Called "cloudsync.sync" (PList [PInt 3])]
        (Returned ()) ()
  ∧ mutating_calls (trace (run (answering (λ _, job_never_run))
                             (TrueNASClousyncSensor.start cloudsync_sensor) ()))
    ≠ [].
Proof. split; [reflexivity|]. split; [reflexivity|]. discriminate. Qed.

(** C2, amended.  [start] and [stop] treat alike a missing job record
    (the reply is not a list, or is an empty list) and a malformed one
    (the first element is not a mapping, or is a mapping without a
    ["job"] key): for a sensor whose record holds ["id"] and
    ["description"], each logs the invalid-job error and returns, with no
    exception and no mutating call.  A record whose ["job"] key is
    present but holds no mapping is not malformed for the code: its state
    counts as none, so [start] issues [cloudsync.sync] and [stop] logs the
    not-running warning. *)
Theorem start_stop_missing_or_malformed {W : Type} (env : world W)
    (self : sensor) (i d : pyval) (w w' : W) (jobs : pyval) :
  _data self !! "id" = Some i →
  _data self !! "description" = Some d →
  remote env "cloudsync.query" (TrueNASClousyncSensor.id_filter i) w
    = (Resp jobs, w') →
  let lookup_call :=
    Called "cloudsync.query" (TrueNASClousyncSensor.id_filter i) in
  let logged :=
    Result [lookup_call; Logged ERROR "Clousync job %s (%s) invalid" [d; i]]
      (Returned ()) w' in
  (isinstance_list jobs = false ∨ jobs = PList [] ∨
    (∃ j rest, jobs = PList (j :: rest) ∧
       (isinstance_dict j = false ∨ ∃ rec, j = PDict rec ∧ rec !! "job" = None)) →
   (run env (TrueNASClousyncSensor.start self) w = logged ∧
    mutating_calls (trace (run env (TrueNASClousyncSensor.start self) w)) = []) ∧
   (run env (TrueNASClousyncSensor.stop self) w = logged ∧
    mutating_calls (trace (run env (TrueNASClousyncSensor.stop self) w)) = [])) ∧
  (∀ rec rest j, jobs = PList (PDict rec :: rest) →
     rec !! "job" = Some j → isinstance_dict j = false →
     trace (run env (TrueNASClousyncSensor.start self) w)
       = [lookup_call; Called "cloudsync.sync" (PList [i])] ∧
     run env (TrueNASClousyncSensor.stop self) w
       = Result [lookup_call;
                 Logged WARNING "Clousync job %s (%s) is not running" [d; i]]
           (Returned ()) w').
Proof.
  intros Hid Hd Hq lookup_call logged. split.
  - intros Hjobs. apply unusable_reply_invalid in Hjobs as Hinv.
    rewrite (start_run_invalid env self i d w w' jobs Hid Hd Hq Hinv).
    by rewrite (stop_run_invalid env self i d w w' jobs Hid Hd Hq Hinv).
  - intros rec rest j -> Hj Hnodict.
    destruct (wellformed_first_job rec rest (mk_is_Some _ _ Hj)) as [Hfirst Hinv].
    assert (TrueNASClousyncSensor.active
              (TrueNASClousyncSensor.state_of (PDict rec)) = false) as Hidle.
    { by rewrite (state_of_no_mapping rec j Hj Hnodict). }
    split.
    + apply (start_trace_idle env self i w w' _ Hid Hq); by rewrite Hfirst.
    + apply (stop_run_idle env self i d w w' _ Hid Hd Hq); by rewrite Hfirst.
Qed.

Lemma start_stop_missing_or_malformed_witness :
  run (answering (λ _, PList []))
      (TrueNASClousyncSensor.start cloudsync_sensor) ()
    = Result [Called "cloudsync.query" (TrueNASClousyncSensor.id_filter (PInt 3));
              Logged ERROR "Clousync job %s (%s) invalid" [PStr "backup"; PInt 3]]
        (Returned ()) ()
  ∧ run (answering (λ _, job_never_run))
      (TrueNASClousyncSensor.stop cloudsync_sensor) ()
    = Result [Called "cloudsync.query" (TrueNASClousyncSensor.id_filter (PInt 3));
              Logged WARNING "Clousync job %s (%s) is not running"
                [PStr "backup"; PInt 3]]
        (Returned ()) ().
Proof.
  split.
  - refine (proj1 (proj1 (proj1 (start_stop_missing_or_malformed
      (answering (λ _, PList [])) cloudsync_sensor
      (PInt 3) (PStr "backup") () () (PList []) _ _ _) _))).
    + reflexivity.
    + reflexivity.
    + reflexivity.
    + right. left. reflexivity.
  - refine (proj2 (proj2 (start_stop_missing_or_malformed
      (answering (λ _, job_never_run)) cloudsync_sensor
      (PInt 3) (PStr "backup") () () job_never_run _ _ _)
      _ [] PNone _ _ _)).
    + reflexivity.
    + reflexivity.
    + reflexivity.
    + reflexivity.
    + reflexivity.
    + reflexivity.
Defined.

(** C6. For a cloud-sync sensor (its record holds ["id"]) and every
    behaviour of the remote side, an invocation of [start] or [stop]
    issues the [cloudsync.query] lookup first and exactly once, and after
    it at most one more call, the mutating one ([cloudsync.sync] for
    [start], [cloudsync.abort] for [stop]): never more than two calls.
    The mutating call is only issued once the lookup has answered with a
    reply that passed validation (a list whose first element is a mapping
    with a ["job"] key). *)
Theorem lookup_then_at_most_one_mutation {W : Type} (env : world W)
    (self : sensor) (i : pyval) (w : W) :
  _data self !! "id" = Some i →
  let lookup_call := ("cloudsync.query", TrueNASClousyncSensor.id_filter i) in
  let validated :=
    ∃ rec rest w',
      remote env "cloudsync.query" (TrueNASClousyncSensor.id_filter i) w
        = (Resp (PList (PDict rec :: rest)), w') ∧ is_Some (rec !! "job") in
  (calls (trace (run env (TrueNASClousyncSensor.start self) w)) = [lookup_call] ∨
   calls (trace (run env (TrueNASClousyncSensor.start self) w))
     = [lookup_call; ("cloudsync.sync", PList [i])] ∧ validated) ∧
  (calls (trace (run env (TrueNASClousyncSensor.stop self) w)) = [lookup_call] ∨
   calls (trace (run env (TrueNASClousyncSensor.stop self) w))
     = [lookup_call; ("cloudsync.abort", PList [i])] ∧ validated).
Proof.
  intros Hid lookup_call validated.
  destruct (remote env "cloudsync.query" (TrueNASClousyncSensor.id_filter i) w)
    as [[jobs|e] w'] eqn:Hq.
  - assert (TrueNASClousyncSensor.invalid (TrueNASClousyncSensor.first_job jobs)
            = false → validated) as Hvalid.
    { intros Hinv. apply invalid_first_job_iff in Hinv as (rec & rest & -> & Hjob).
      by exists rec, rest, w'. }
    assert (∀ lvl msg,
      calls (trace (after (Called "cloudsync.query" (TrueNASClousyncSensor.id_filter i))
        (run env (description ← subscript self "description";
                  id ← subscript self "id";
                  log lvl msg [description; id]) w'))) = [lookup_call]) as Hlog.
    { intros lvl msg. destruct (_data self !! "description") as [d|] eqn:Hd.
      - by rewrite (run_log_branch env self i w' Hid d _ _ Hd).
      - by rewrite (run_log_branch_no_description env self w' _ _ Hd). }
    assert (∀ method,
      calls (trace (after (Called "cloudsync.query" (TrueNASClousyncSensor.id_filter i))
        (run env (id ← subscript self "id";
                  api_query method (PList [id]);; mret ()) w')))
      = [lookup_call; (method, PList [i])]) as Hmut.
    { intros method. unfold after. cbn [trace].
      by rewrite (run_mutation_branch env self i w' Hid). }
    rewrite (start_after_lookup env self i w w' jobs Hid Hq).
    rewrite (stop_after_lookup env self i w w' jobs Hid Hq).
    destruct (TrueNASClousyncSensor.invalid _) eqn:Hinv; [by split; left|].
    destruct (TrueNASClousyncSensor.active _) eqn:Hact; cbn [negb]; split;
      (by left) || (right; split; [apply Hmut | by apply Hvalid]).
  - unfold TrueNASClousyncSensor.start, TrueNASClousyncSensor.stop.
    rewrite !(run_subscript_some _ _ _ _ _ _ Hid).
    rewrite !(run_query_fault _ _ _ _ _ _ _ Hq).
    by split; left.
Qed.

Lemma lookup_then_at_most_one_mutation_witness :
  (calls (trace (run (answering (λ _, job_in_state "SUCCESS"))
                   (TrueNASClousyncSensor.start cloudsync_sensor) ()))
     = [("cloudsync.query", TrueNASClousyncSensor.id_filter (PInt 3))] ∨
   calls (trace (run (answering (λ _, job_in_state "SUCCESS"))
                   (TrueNASClousyncSensor.start cloudsync_sensor) ()))
     = [("cloudsync.query", TrueNASClousyncSensor.id_filter (PInt 3));
        ("cloudsync.sync", PList [PInt 3])] ∧
   ∃ rec rest w',
     remote (answering (λ _, job_in_state "SUCCESS")) "cloudsync.query"
       (TrueNASClousyncSensor.id_filter (PInt 3)) ()
       = (Resp (PList (PDict rec :: rest)), w') ∧ is_Some (rec !! "job")).
Proof.
  refine (proj1 (lookup_then_at_most_one_mutation
    (answering (λ _, job_in_state "SUCCESS")) cloudsync_sensor (PInt 3) () _)).
  reflexivity.
Defined.

(** C5. As long as every fresh lookup returns a job record with a
    ["job"] entry whose state is neither ["WAITING"] nor ["RUNNING"],
    any number of successive invocations of [stop] each log the
    not-running warning and return: none raises, none issues
    [cloudsync.abort].  [Idle] is any property of the outside world that
    the lookup preserves and under which it answers in that way. *)
Theorem stop_idle_repeatedly_noop {W : Type} (env : world W) (self : sensor)
    (i d : pyval) (Idle : W → Prop) (n : nat) (w : W) :
  _data self !! "id" = Some i →
  _data self !! "description" = Some d →
  (∀ w0, Idle w0 → ∃ rec rest w1,
     remote env "cloudsync.query" (TrueNASClousyncSensor.id_filter i) w0
       = (Resp (PList (PDict rec :: rest)), w1) ∧
     Idle w1 ∧ is_Some (rec !! "job") ∧
     TrueNASClousyncSensor.state_of (PDict rec) ≠ PStr "WAITING" ∧
     TrueNASClousyncSensor.state_of (PDict rec) ≠ PStr "RUNNING") →
  Idle w →
  length (invocations env (TrueNASClousyncSensor.stop self) n w) = n ∧
  Forall (λ r,
      trace r = [Called "cloudsync.query" (TrueNASClousyncSensor.id_filter i);
                 Logged WARNING "Clousync job %s (%s) is not running" [d; i]] ∧
      outcome_of r = Returned () ∧
      mutating_calls (trace r) = [])
    (invocations env (TrueNASClousyncSensor.stop self) n w).
Proof.
  intros Hid Hd Hidle. revert w.
  induction n as [|n IH]; intros w Hw; simpl.
  - split; [done|constructor].
  - destruct (Hidle w Hw) as (rec & rest & w1 & Hq & Hw1 & Hjob & Hs1 & Hs2).
    destruct (wellformed_first_job rec rest Hjob) as [Hfirst Hinv].
    assert (run env (TrueNASClousyncSensor.stop self) w =
      Result [Called "cloudsync.query" (TrueNASClousyncSensor.id_filter i);
              Logged WARNING "Clousync job %s (%s) is not running" [d; i]]
        (Returned ()) w1) as ->.
    { apply (stop_run_idle env self i d w w1 _ Hid Hd Hq); rewrite Hfirst; [done|].
      by apply active_false_iff. }
    cbn [final]. destruct (IH w1 Hw1) as [Hlen Hall].
    split; [by rewrite Hlen|]. by constructor.
Qed.

Lemma stop_idle_repeatedly_noop_witness :
  length (invocations (answering (λ _, job_in_state "SUCCESS"))
            (TrueNASClousyncSensor.stop cloudsync_sensor) 3 ()) = 3 ∧
  Forall (λ r,
      trace r = [Called "cloudsync.query" (TrueNASClousyncSensor.id_filter (PInt 3));
                 Logged WARNING "Clousync job %s (%s) is not running"
                   [PStr "backup"; PInt 3]] ∧
      outcome_of r = Returned () ∧
      mutating_calls (trace r) = [])
    (invocations (answering (λ _, job_in_state "SUCCESS"))
       (TrueNASClousyncSensor.stop cloudsync_sensor) 3 ()).
Proof.
  refine (stop_idle_repeatedly_noop
    (answering (λ _, job_in_state "SUCCESS")) cloudsync_sensor
    (PInt 3) (PStr "backup") (λ _, True) 3 () _ _ _ _).
  - reflexivity.
  - reflexivity.
  - intros [] _. eexists _, [], (). split; [reflexivity|].
    split; [exact I|]. split; [eexists; reflexivity|]. split; discriminate.
  - exact I.
Defined.

(* ===================================================================== *)
(** * The dataset sensor: snapshot names and the fallback call *)
(* ===================================================================== *)

Lemma length_zeros (k : nat) : String.length (zeros k) = k.
Proof. induction k as [|k IH]; simpl; [done|]. by rewrite IH. Qed.

Lemma length_append (s t : string) :
  String.length (s +:+ t) = (String.length s + String.length t)%nat.
Proof. induction s as [|c s IH]; simpl; [done|]. by rewrite IH. Qed.

Lemma append_assoc (s t u : string) : (s +:+ t) +:+ u = s +:+ (t +:+ u).
Proof.
  induction s as [|c s IH]; [done|].
  change (String c ((s +:+ t) +:+ u) = String c (s +:+ (t +:+ u))).
  by rewrite IH.
Qed.

(** A number below [10 ^ k] prints with at most [k] digits. *)
Lemma pretty_N_go_length (k : nat) (x : N) (s : string) :
  (x < 10 ^ N.of_nat k)%N →
  (String.length (pretty_N_go x s) ≤ k + String.length s)%nat.
Proof.
  revert x s. induction k as [|k IH]; intros x s Hx.
  - assert (x = 0%N) as -> by (simpl in Hx; lia). rewrite pretty_N_go_0. lia.
  - destruct (decide (x = 0%N)) as [->|Hne].
    + rewrite pretty_N_go_0. lia.
    + rewrite pretty_N_go_step by lia.
      etrans; [apply IH|simpl; lia].
      apply N.Div0.div_lt_upper_bound.
      rewrite Nat2N.inj_succ, N.pow_succ_r' in Hx. lia.
Qed.

Lemma pretty_N_length (k : nat) (n : N) :
  (1 ≤ k)%nat → (n < 10 ^ N.of_nat k)%N → (String.length (pretty n) ≤ k)%nat.
Proof.
  intros Hk Hn. unfold pretty, pretty_N.
  case_decide; [simpl; lia|].
  etrans; [by apply (pretty_N_go_length k)|simpl; lia].
Qed.

Lemma zero_pad_length (width : nat) (n : N) :
  (1 ≤ width)%nat → (n < 10 ^ N.of_nat width)%N →
  String.length (zero_pad width n) = width.
Proof.
  intros Hk Hn. unfold zero_pad. rewrite length_append, length_zeros.
  pose proof (pretty_N_length width n Hk Hn). lia.
Qed.

(** The timestamp of a valid instant: ten characters of date, the
    separator, eight of time, a dot and six digits of microseconds. *)
Lemma isoformat_microseconds_shape (sep : string) (dt : datetime) :
  valid_datetime dt →
  ∃ date time fraction,
    isoformat_microseconds sep dt = date +:+ sep +:+ time +:+ "." +:+ fraction ∧
    String.length date = 10 ∧ String.length time = 8 ∧
    String.length fraction = 6.
Proof.
  intros (Hy & Hm & Hd & Hh & Hmi & Hs & Hus).
  exists (zero_pad 4 (year dt) +:+ "-" +:+ zero_pad 2 (month dt) +:+ "-" +:+
          zero_pad 2 (day dt)),
         (zero_pad 2 (hour dt) +:+ ":" +:+ zero_pad 2 (minute dt) +:+ ":" +:+
          zero_pad 2 (second dt)),
         (zero_pad 6 (microsecond dt)).
  split; [|split; [|split]].
  - unfold isoformat_microseconds. by rewrite !append_assoc.
  - rewrite !length_append, !zero_pad_length; simpl; lia.
  - rewrite !length_append, !zero_pad_length; simpl; lia.
  - rewrite zero_pad_length; simpl; lia.
Qed.

(** Rendering the dataset name into the payload leaves a string as it
    is. *)
Lemma format_value_str (str_compound : pyval → string) (s : string) :
  format_value str_compound (PStr s) = s.
Proof. done. Qed.

(** C3. For a dataset record with name [n] and the instant [now] read
    from the clock, [snapshot] builds the name ["custom-"] followed by the
    timestamp of [now] with ["_"] between date and time and six digits of
    microseconds, and first issues [pool.snapshot.create] with the payload
    [{dataset: n, name: <generated name>}].  The second call,
    [zfs.snapshot.create] with the same payload, is issued if and only if
    the first result is a mapping with an ["error"] key; whatever value
    the second call returns, the method returns. *)
Theorem snapshot_primary_then_fallback {W : Type} (env : world W)
    (str_compound : pyval → string) (self : sensor)
    (now : datetime) (n : string) (result : pyval) (w w1 w2 : W) :
  clock env w = (now, w1) →
  _data self !! "name" = Some (PStr n) →
  let name := "custom-" +:+ isoformat_microseconds "_" now in
  let payload := PDict (<["dataset" := PStr n]> (<["name" := PStr name]> ∅)) in
  remote env "pool.snapshot.create" payload w1 = (Resp result, w2) →
  let r := run env (TrueNASDatasetSensor.snapshot str_compound self) w in
  let in_band := ∃ d, result = PDict d ∧ is_Some (d !! "error") in
  (valid_datetime now → ∃ date time fraction,
     name = "custom-" +:+ date +:+ "_" +:+ time +:+ "." +:+ fraction ∧
     String.length date = 10 ∧ String.length time = 8 ∧
     String.length fraction = 6) ∧
  (in_band →
     trace r = [Called "pool.snapshot.create" payload;
                Called "zfs.snapshot.create" payload]) ∧
  (¬ in_band →
     r = Result [Called "pool.snapshot.create" payload] (Returned ()) w2) ∧
  (in_band → ∀ v w3,
     remote env "zfs.snapshot.create" payload w2 = (Resp v, w3) →
     r = Result [Called "pool.snapshot.create" payload;
                 Called "zfs.snapshot.create" payload] (Returned ()) w3).
Proof.
  intros Hclock Hname name payload Hq r in_band.
  assert (r = after (Called "pool.snapshot.create" payload)
    (run env (if TrueNASDatasetSensor.has_error result
              then api_query "zfs.snapshot.create" payload;; mret ()
              else mret ()) w2)) as Hr.
  { unfold r, TrueNASDatasetSensor.snapshot, datetime_now. cbn [mbind action_mbind action_bind run].
    rewrite Hclock.
    change (action_bind ?f ?p) with (p ≫= f).
    rewrite (run_subscript_some _ _ _ _ _ _ Hname).
    by rewrite (run_query_resp _ _ _ _ _ _ _ Hq). }
  split; [|split; [|split]].
  - intros Hvalid.
    destruct (isoformat_microseconds_shape "_" now Hvalid)
      as (date & time & fraction & Hfmt & ?).
    exists date, time, fraction. split; [|done]. unfold name. by rewrite Hfmt.
  - intros Herr. apply has_error_iff in Herr. rewrite Hr, Herr. simpl.
    by destruct (remote env "zfs.snapshot.create" payload w2) as [[v|e] w3].
  - intros Hok. rewrite Hr.
    destruct (TrueNASDatasetSensor.has_error result) eqn:Herr; [|done].
    by apply has_error_iff in Herr.
  - intros Herr v w3 Hq2. apply has_error_iff in Herr. rewrite Hr, Herr.
    by rewrite (run_query_resp _ _ _ _ _ _ _ Hq2).
Qed.

Lemma snapshot_primary_then_fallback_witness :
  trace (run (answering (λ _, in_band_error))
           (TrueNASDatasetSensor.snapshot (λ _, "") dataset_sensor) ())
  = [Called "pool.snapshot.create"
       (PDict (<["dataset" := PStr "tank/data"]>
               (<["name" := PStr "custom-2024-01-02_03:04:05.000006"]> ∅)));
     Called "zfs.snapshot.create"
       (PDict (<["dataset" := PStr "tank/data"]>
               (<["name" := PStr "custom-2024-01-02_03:04:05.000006"]> ∅)))].
Proof.
  refine (proj1 (proj2 (snapshot_primary_then_fallback
    (answering (λ _, in_band_error)) (λ _, "") dataset_sensor
    sample_instant "tank/data" in_band_error () () () _ _ _)) _).
  - reflexivity.
  - reflexivity.
  - reflexivity.
  - exists (<["error" := PStr "method not found"]> ∅). split; [reflexivity|].
    eexists. reflexivity.
Defined.

(* ===================================================================== *)
(** * Further properties of the base value sensor *)
(* ===================================================================== *)

(** X1. A sensor whose configured unit does not start with [data__]
    (or that has none) reports the same unit whatever the cached record
    holds: only a dynamic unit depends on the data. *)
Theorem static_unit_ignores_record (desc : EntityDescription)
    (d1 d2 : gmap string pyval) :
  (∀ f, native_unit_of_measurement desc ≠ Some ("data__" +:+ f)) →
  TrueNASSensor.native_unit_of_measurement
    {| entity_description := desc; _data := d1 |}
  = TrueNASSensor.native_unit_of_measurement
    {| entity_description := desc; _data := d2 |}.
Proof.
  intros Hstatic. unfold TrueNASSensor.native_unit_of_measurement.
  cbn [entity_description _data].
  destruct (native_unit_of_measurement desc) as [u|]; [|done].
  destruct (truthy (PStr u)); [|done].
  destruct (String.prefix "data__" u) eqn:Hp; [|done].
  destruct (prefix_inv _ _ Hp) as [f Hf]. destruct (Hstatic f). by rewrite Hf.
Qed.

Lemma static_unit_ignores_record_witness :
  TrueNASSensor.native_unit_of_measurement
    {| entity_description := entity_description dataset_sensor; _data := ∅ |}
  = TrueNASSensor.native_unit_of_measurement
    {| entity_description := entity_description dataset_sensor;
       _data := _data quota_sensor |}.
Proof.
  apply (static_unit_ignores_record (entity_description dataset_sensor)).
  intros f. discriminate.
Defined.

(** X2. Value and unit each read one field of the cached record.  A
    write to a field other than [data_attribute] leaves the value as it
    was, and a write to a field the unit string does not name leaves the
    unit as it was; a write to [data_attribute] is what the value becomes,
    and a write to the field a dynamic unit names is what the unit
    becomes. *)
Theorem value_and_unit_follow_their_field (desc : EntityDescription)
    (d : gmap string pyval) (k : string) (v : pyval) :
  (k ≠ data_attribute desc →
     TrueNASSensor.native_value {| entity_description := desc; _data := <[k := v]> d |}
     = TrueNASSensor.native_value {| entity_description := desc; _data := d |}) ∧
  (native_unit_of_measurement desc ≠ Some ("data__" +:+ k) →
     TrueNASSensor.native_unit_of_measurement
       {| entity_description := desc; _data := <[k := v]> d |}
     = TrueNASSensor.native_unit_of_measurement
       {| entity_description := desc; _data := d |}) ∧
  (k = data_attribute desc →
     TrueNASSensor.native_value {| entity_description := desc; _data := <[k := v]> d |}
     = inr v) ∧
  (native_unit_of_measurement desc = Some ("data__" +:+ k) →
     TrueNASSensor.native_unit_of_measurement
       {| entity_description := desc; _data := <[k := v]> d |} = v).
Proof.
  split; [|split; [|split]].
  - intros Hk. unfold TrueNASSensor.native_value, getitem. simpl.
    by rewrite lookup_insert_ne.
  - intros Hk. unfold TrueNASSensor.native_unit_of_measurement.
    cbn [entity_description _data].
    destruct (native_unit_of_measurement desc) as [u|]; [|done].
    destruct (truthy (PStr u)); [|done].
    destruct (String.prefix "data__" u) eqn:Hp; [|done].
    destruct (prefix_inv _ _ Hp) as [f Hf]. rewrite Hf, slice_data_app.
    rewrite lookup_insert_ne; [done|]. intros ->. by rewrite Hf in Hk.
  - intros ->. unfold TrueNASSensor.native_value, getitem. simpl.
    by rewrite lookup_insert_eq.
  - intros Hu. unfold TrueNASSensor.native_unit_of_measurement.
    cbn [entity_description _data]. rewrite Hu. cbn [truthy].
    change (("data__" +:+ k) =? "")%string with false. cbn [negb].
    by rewrite prefix_data_app, slice_data_app, lookup_insert_eq.
Qed.

Lemma value_and_unit_follow_their_field_witness :
  TrueNASSensor.native_value
    {| entity_description := entity_description quota_sensor;
       _data := <["unit" := PStr "TiB"]> (_data quota_sensor) |}
  = TrueNASSensor.native_value quota_sensor ∧
  TrueNASSensor.native_unit_of_measurement
    {| entity_description := entity_description quota_sensor;
       _data := <["quota" := PInt 9]> (_data quota_sensor) |}
  = TrueNASSensor.native_unit_of_measurement quota_sensor ∧
  TrueNASSensor.native_value
    {| entity_description := entity_description quota_sensor;
       _data := <["quota" := PInt 9]> (_data quota_sensor) |}
  = inr (PInt 9) ∧
  TrueNASSensor.native_unit_of_measurement
    {| entity_description := entity_description quota_sensor;
       _data := <["unit" := PStr "TiB"]> (_data quota_sensor) |}
  = PStr "TiB".
Proof.
  split; [|split; [|split]].
  - apply (proj1 (value_and_unit_follow_their_field
      (entity_description quota_sensor) (_data quota_sensor) "unit" (PStr "TiB"))).
    discriminate.
  - apply (proj1 (proj2 (value_and_unit_follow_their_field
      (entity_description quota_sensor) (_data quota_sensor) "quota" (PInt 9)))).
    discriminate.
  - apply (proj1 (proj2 (proj2 (value_and_unit_follow_their_field
      (entity_description quota_sensor) (_data quota_sensor) "quota" (PInt 9))))).
    reflexivity.
  - apply (proj2 (proj2 (proj2 (value_and_unit_follow_their_field
      (entity_description quota_sensor) (_data quota_sensor) "unit" (PStr "TiB"))))).
    reflexivity.
Defined.

(* ===================================================================== *)
(** * Further properties of the uptime and dataset sensors *)
(* ===================================================================== *)

(** X3. Nothing in [restart] or in the uptime sensor's [stop] catches
    an exception of the API client: when the remote call raises, the
    method ends with that very exception, after the single call and
    without logging. *)
Theorem uptime_actions_propagate_faults {W : Type} (env : world W)
    (self : sensor) (w w' : W) (e : exn) :
  let reason := PList [PStr "Home Assistant Integration"] in
  (remote env "system.reboot" reason w = (Fault e, w') →
     run env (TrueNASUptimeSensor.restart self) w
     = Result [Called "system.reboot" reason] (Raised e) w') ∧
  (remote env "system.shutdown" reason w = (Fault e, w') →
     run env (TrueNASUptimeSensor.stop self) w
     = Result [Called "system.shutdown" reason] (Raised e) w').
Proof.
  unfold TrueNASUptimeSensor.restart, TrueNASUptimeSensor.stop.
  split; intros H; by rewrite (run_query_fault _ _ _ _ _ _ _ H).
Qed.

Lemma uptime_actions_propagate_faults_witness :
  run (responding (λ _, Fault (ApiFault "connection refused")))
      (TrueNASUptimeSensor.restart uptime_sensor) ()
  = Result [Called "system.reboot" (PList [PStr "Home Assistant Integration"])]
      (Raised (ApiFault "connection refused")) ().
Proof.
  apply (proj1 (uptime_actions_propagate_faults
    (responding (λ _, Fault (ApiFault "connection refused")))
    uptime_sensor () () (ApiFault "connection refused"))).
  reflexivity.
Defined.

(** [snapshot] up to its first remote call. *)
Lemma snapshot_after_clock {W : Type} (env : world W)
    (str_compound : pyval → string) (self : sensor)
    (now : datetime) (w w1 : W) :
  clock env w = (now, w1) →
  run env (TrueNASDatasetSensor.snapshot str_compound self) w =
  run env
    (name ← subscript self "name";
     let payload := TrueNASDatasetSensor.snapshot_payload
       (format_value str_compound name)
       ("custom-" +:+ isoformat_microseconds "_" now) in
     result ← api_query "pool.snapshot.create" payload;
     if TrueNASDatasetSensor.has_error result then
       api_query "zfs.snapshot.create" payload;; mret ()
     else mret ()) w1.
Proof.
  intros Hclock. unfold TrueNASDatasetSensor.snapshot, datetime_now.
  cbn [mbind action_mbind action_bind run]. by rewrite Hclock.
Qed.

(** X4. A dataset record without a ["name"] field makes [snapshot] end
    in [KeyError] for that field before anything is sent: no remote call
    is issued and nothing is logged. *)
Theorem snapshot_without_name_sends_nothing {W : Type} (env : world W)
    (str_compound : pyval → string) (self : sensor) (w : W) :
  _data self !! "name" = None →
  trace (run env (TrueNASDatasetSensor.snapshot str_compound self) w) = [] ∧
  outcome_of (run env (TrueNASDatasetSensor.snapshot str_compound self) w)
  = Raised (KeyError "name").
Proof.
  intros Hname. destruct (clock env w) as [now w1] eqn:Hclock.
  rewrite (snapshot_after_clock env str_compound self now w w1 Hclock).
  by rewrite (run_subscript_none _ _ _ _ _ Hname).
Qed.

Lemma snapshot_without_name_sends_nothing_witness :
  trace (run (answering (λ _, PNone))
           (TrueNASDatasetSensor.snapshot (λ _, "") uptime_sensor) ()) = [] ∧
  outcome_of (run (answering (λ _, PNone))
                (TrueNASDatasetSensor.snapshot (λ _, "") uptime_sensor) ())
  = Raised (KeyError "name").
Proof.
  apply (snapshot_without_name_sends_nothing
    (answering (λ _, PNone)) (λ _, "") uptime_sensor ()).
  reflexivity.
Defined.



(** X6. Whatever the record, the clock and the remote side do,
    [snapshot] logs nothing and issues no call, or [pool.snapshot.create]
    alone, or [pool.snapshot.create] followed by [zfs.snapshot.create]
    with the same payload: never more than two calls, and the fallback
    never before or without the primary one. *)
Theorem snapshot_calls_bounded {W : Type} (env : world W)
    (str_compound : pyval → string) (self : sensor) (w : W) :
  let tr := trace (run env (TrueNASDatasetSensor.snapshot str_compound self) w) in
  log_calls tr = [] ∧
  (tr = [] ∨
   ∃ payload,
     tr = [Called "pool.snapshot.create" payload] ∨
     tr = [Called "pool.snapshot.create" payload;
           Called "zfs.snapshot.create" payload]).
Proof.
  destruct (clock env w) as [now w1] eqn:Hclock. cbn zeta.
  rewrite (snapshot_after_clock env str_compound self now w w1 Hclock).
  destruct (_data self !! "name") as [name|] eqn:Hname.
  - rewrite (run_subscript_some _ _ _ _ _ _ Hname). cbn zeta.
    set (payload := TrueNASDatasetSensor.snapshot_payload _ _).
    destruct (remote env "pool.snapshot.create" payload w1)
      as [[result|e] w2] eqn:Hq.
    + rewrite (run_query_resp _ _ _ _ _ _ _ Hq).
      destruct (TrueNASDatasetSensor.has_error result).
      * destruct (remote env "zfs.snapshot.create" payload w2)
          as [[v|e] w3] eqn:Hq2.
        -- rewrite (run_query_resp _ _ _ _ _ _ _ Hq2).
           split; [done|]. right. exists payload. by right.
        -- rewrite (run_query_fault _ _ _ _ _ _ _ Hq2).
           split; [done|]. right. exists payload. by right.
      * split; [done|]. right. exists payload. by left.
    + rewrite (run_query_fault _ _ _ _ _ _ _ Hq).
      split; [done|]. right. exists payload. by left.
  - rewrite (run_subscript_none _ _ _ _ _ Hname). split; [done|]. by left.
Qed.

(** The decimal rendering of a number is never empty, and it begins
    with the digit zero only for the number zero. *)
Lemma pretty_N_go_head (x : N) (s : string) :
  (0 < x)%N → ∃ c t, pretty_N_go x s = String c t ∧ c ≠ "0"%char.
Proof.
  revert s. induction (N.lt_wf_0 x) as [x _ IH]; intros s Hx.
  rewrite pretty_N_go_step by done.
  destruct (decide (x `div` 10 = 0)%N) as [Hdiv|Hdiv].
  - rewrite Hdiv, pretty_N_go_0. eexists _, _. split; [done|].
    apply N.div_small_iff in Hdiv; [|done].
    rewrite N.mod_small by done.
    intros Hzero. assert (x = 0%N); [|lia].
    apply pretty_N_char_inj; [lia|lia|done].
  - apply IH; [apply N.div_lt; lia|by apply N.neq_0_lt_0].
Qed.

Lemma pretty_N_head (n : N) :
  ∃ c t, pretty n = String c t ∧ (c = "0"%char → n = 0%N).
Proof.
  unfold pretty, pretty_N. case_decide as Hn.
  - by eexists _, _.
  - destruct (pretty_N_go_head n "") as (c & t & -> & Hc); [lia|].
    by exists c, t.
Qed.

(** Zero padding loses nothing: the padded field determines the
    number. *)
Lemma zeros_pretty_inj (a b : nat) (n m : N) :
  zeros a +:+ pretty n = zeros b +:+ pretty m → n = m.
Proof.
  revert b. induction a as [|a IH]; intros [|b]; cbn [zeros]; intros H.
  - by apply (inj pretty).
  - change (pretty n = String "0" (zeros b +:+ pretty m)) in H.
    destruct (pretty_N_head n) as (c & t & Hn & Hc).
    rewrite Hn in H. injection H as -> Ht.
    rewrite (Hc eq_refl) in Hn. injection Hn as <-.
    destruct (pretty_N_head m) as (c' & t' & Hm & _). rewrite Hm in Ht.
    by destruct b.
  - change (String "0" (zeros a +:+ pretty n) = pretty m) in H.
    destruct (pretty_N_head m) as (c & t & Hm & Hc).
    rewrite Hm in H. injection H as <- Ht.
    rewrite (Hc eq_refl) in Hm. injection Hm as <-.
    destruct (pretty_N_head n) as (c' & t' & Hn & _). rewrite Hn in Ht.
    by destruct a.
  - change (String "0" (zeros a +:+ pretty n)
            = String "0" (zeros b +:+ pretty m)) in H.
    injection H as H. by apply (IH b).
Qed.

Lemma zero_pad_inj (width : nat) (n m : N) :
  zero_pad width n = zero_pad width m → n = m.
Proof. apply zeros_pretty_inj. Qed.

(** Two strings that agree after prefixes of the same length agree
    piece by piece. *)
Lemma append_inj_length (a a' b b' : string) :
  String.length a = String.length a' → a +:+ b = a' +:+ b' → a = a' ∧ b = b'.
Proof.
  revert a'. induction a as [|c a IH]; intros [|c' a'] Hlen H;
    try discriminate Hlen.
  - done.
  - change (String c (a +:+ b) = String c' (a' +:+ b')) in H.
    injection H as -> H. injection Hlen as Hlen.
    destruct (IH a' Hlen H) as [-> ->]. done.
Qed.

Lemma isoformat_microseconds_inj (sep : string) (t1 t2 : datetime) :
  valid_datetime t1 → valid_datetime t2 →
  isoformat_microseconds sep t1 = isoformat_microseconds sep t2 → t1 = t2.
Proof.
  intros (Hy1 & Hm1 & Hd1 & Hh1 & Hmi1 & Hs1 & Hus1)
         (Hy2 & Hm2 & Hd2 & Hh2 & Hmi2 & Hs2 & Hus2) H.
  unfold isoformat_microseconds in H.
  apply append_inj_length in H as [Hy H];
    [|rewrite !zero_pad_length; simpl; lia].
  apply (inj (String.app "-")) in H.
  apply append_inj_length in H as [Hm H];
    [|rewrite !zero_pad_length; simpl; lia].
  apply (inj (String.app "-")) in H.
  apply append_inj_length in H as [Hd H];
    [|rewrite !zero_pad_length; simpl; lia].
  apply (inj (String.app sep)) in H.
  apply append_inj_length in H as [Hh H];
    [|rewrite !zero_pad_length; simpl; lia].
  apply (inj (String.app ":")) in H.
  apply append_inj_length in H as [Hmi H];
    [|rewrite !zero_pad_length; simpl; lia].
  apply (inj (String.app ":")) in H.
  apply append_inj_length in H as [Hs H];
    [|rewrite !zero_pad_length; simpl; lia].
  apply (inj (String.app ".")) in H.
  apply zero_pad_inj in Hy, Hm, Hd, Hh, Hmi, Hs, H.
  destruct t1, t2. simpl in *. by subst.
Qed.

(** X7. The snapshot name identifies the instant it was taken at: two
    valid instants that differ, if only in the microsecond, give
    different names, so two snapshots of a dataset never collide unless
    the clock shows the very same microsecond. *)
Theorem snapshot_name_identifies_instant (t1 t2 : datetime) :
  valid_datetime t1 → valid_datetime t2 → t1 ≠ t2 →
  "custom-" +:+ isoformat_microseconds "_" t1
  ≠ "custom-" +:+ isoformat_microseconds "_" t2.
Proof.
  intros Hv1 Hv2 Hne H. apply Hne.
  apply (inj (String.app "custom-")) in H.
  by apply (isoformat_microseconds_inj "_").
Qed.

Lemma snapshot_name_identifies_instant_witness :
  "custom-" +:+ isoformat_microseconds "_" sample_instant
  ≠ "custom-" +:+ isoformat_microseconds "_"
      {| year := 2024; month := 1; day := 2;
         hour := 3; minute := 4; second := 5; microsecond := 7 |}.
Proof.
  apply snapshot_name_identifies_instant.
  - unfold valid_datetime, sample_instant. simpl. lia.
  - unfold valid_datetime. simpl. lia.
  - discriminate.
Defined.

(* ===================================================================== *)
(** * Further properties of the cloud-sync sensor *)
(* ===================================================================== *)

(** X8. A cloud-sync record without an ["id"] field makes [start] and
    [stop] end in [KeyError] for that field while the lookup filter is
    being built: no remote call is issued and nothing is logged. *)
Theorem cloudsync_without_id_sends_nothing {W : Type} (env : world W)
    (self : sensor) (w : W) :
  _data self !! "id" = None →
  run env (TrueNASClousyncSensor.start self) w
    = Result [] (Raised (KeyError "id")) w ∧
  run env (TrueNASClousyncSensor.stop self) w
    = Result [] (Raised (KeyError "id")) w.
Proof.
  intros Hid. unfold TrueNASClousyncSensor.start, TrueNASClousyncSensor.stop.
  by rewrite !(run_subscript_none _ _ _ _ _ Hid).
Qed.

Lemma cloudsync_without_id_sends_nothing_witness :
  run tracking_job (TrueNASClousyncSensor.start blank_sensor) true
    = Result [] (Raised (KeyError "id")) true ∧
  run tracking_job (TrueNASClousyncSensor.stop blank_sensor) true
    = Result [] (Raised (KeyError "id")) true.
Proof.
  apply (cloudsync_without_id_sends_nothing tracking_job blank_sensor true).
  reflexivity.
Defined.

(** X9. When the lookup itself raises, [start] and [stop] end with that
    exception right after the lookup: nothing is logged and no mutating
    call is issued. *)
Theorem cloudsync_lookup_fault_propagates {W : Type} (env : world W)
    (self : sensor) (i : pyval) (e : exn) (w w' : W) :
  _data self !! "id" = Some i →
  remote env "cloudsync.query" (TrueNASClousyncSensor.id_filter i) w
    = (Fault e, w') →
  run env (TrueNASClousyncSensor.start self) w
    = Result [Called "cloudsync.query" (TrueNASClousyncSensor.id_filter i)]
        (Raised e) w' ∧
  run env (TrueNASClousyncSensor.stop self) w
    = Result [Called "cloudsync.query" (TrueNASClousyncSensor.id_filter i)]
        (Raised e) w'.
Proof.
  intros Hid Hq. unfold TrueNASClousyncSensor.start, TrueNASClousyncSensor.stop.
  rewrite !(run_subscript_some _ _ _ _ _ _ Hid).
  by rewrite !(run_query_fault _ _ _ _ _ _ _ Hq).
Qed.

Lemma cloudsync_lookup_fault_propagates_witness :
  run (responding (λ _, Fault (ApiFault "timeout")))
      (TrueNASClousyncSensor.start cloudsync_sensor) ()
    = Result [Called "cloudsync.query" (TrueNASClousyncSensor.id_filter (PInt 3))]
        (Raised (ApiFault "timeout")) () ∧
  run (responding (λ _, Fault (ApiFault "timeout")))
      (TrueNASClousyncSensor.stop cloudsync_sensor) ()
    = Result [Called "cloudsync.query" (TrueNASClousyncSensor.id_filter (PInt 3))]
        (Raised (ApiFault "timeout")) ().
Proof.
  apply (cloudsync_lookup_fault_propagates
    (responding (λ _, Fault (ApiFault "timeout"))) cloudsync_sensor
    (PInt 3) (ApiFault "timeout") () ()); reflexivity.
Defined.

(** X10. The log messages read the record's ["description"].  When the
    record has none, every path that would log ends in [KeyError] for
    that field instead, after the lookup and without a mutating call:
    both methods on an unusable reply, [start] on an active job and
    [stop] on one that is not active. *)
Theorem cloudsync_without_description_raises {W : Type} (env : world W)
    (self : sensor) (i : pyval) (w w' : W) (jobs : pyval) :
  _data self !! "id" = Some i →
  _data self !! "description" = None →
  remote env "cloudsync.query" (TrueNASClousyncSensor.id_filter i) w
    = (Resp jobs, w') →
  let raised :=
    Result [Called "cloudsync.query" (TrueNASClousyncSensor.id_filter i)]
      (Raised (KeyError "description")) w' in
  (isinstance_list jobs = false ∨ jobs = PList [] ∨
    (∃ j rest, jobs = PList (j :: rest) ∧
       (isinstance_dict j = false ∨ ∃ rec, j = PDict rec ∧ rec !! "job" = None)) →
   run env (TrueNASClousyncSensor.start self) w = raised ∧
   run env (TrueNASClousyncSensor.stop self) w = raised) ∧
  (∀ rec rest, jobs = PList (PDict rec :: rest) → is_Some (rec !! "job") →
     let state := TrueNASClousyncSensor.state_of (PDict rec) in
     (state = PStr "WAITING" ∨ state = PStr "RUNNING" →
        run env (TrueNASClousyncSensor.start self) w = raised) ∧
     (state ≠ PStr "WAITING" ∧ state ≠ PStr "RUNNING" →
        run env (TrueNASClousyncSensor.stop self) w = raised)).
Proof.
  intros Hid Hd Hq raised.
  rewrite (start_after_lookup env self i w w' jobs Hid Hq).
  rewrite (stop_after_lookup env self i w w' jobs Hid Hq).
  split.
  - intros Hjobs. apply unusable_reply_invalid in Hjobs as ->.
    by rewrite (run_log_branch_no_description env self w' _ _ Hd).
  - intros rec rest -> Hjob state.
    destruct (wellformed_first_job rec rest Hjob) as [-> ->].
    split; intros Hstate; unfold state in Hstate.
    + apply active_iff in Hstate. rewrite Hstate.
      by rewrite (run_log_branch_no_description env self w' _ _ Hd).
    + apply active_false_iff in Hstate. rewrite Hstate. cbn [negb].
      by rewrite (run_log_branch_no_description env self w' _ _ Hd).
Qed.

Lemma cloudsync_without_description_raises_witness :
  run tracking_job (TrueNASClousyncSensor.start undescribed_sensor) true
  = Result [Called "cloudsync.query" (TrueNASClousyncSensor.id_filter (PInt 3))]
      (Raised (KeyError "description")) true
  ∧ run (answering (λ _, PNone)) (TrueNASClousyncSensor.stop undescribed_sensor) ()
  = Result [Called "cloudsync.query" (TrueNASClousyncSensor.id_filter (PInt 3))]
      (Raised (KeyError "description")) ().
Proof.
  split.
  - refine (proj1 (proj2 (cloudsync_without_description_raises
      tracking_job undescribed_sensor (PInt 3) true true
      (job_in_state "RUNNING") _ _ _) _ [] _ _) _).
    + reflexivity.
    + reflexivity.
    + reflexivity.
    + reflexivity.
    + eexists. reflexivity.
    + right. reflexivity.
  - refine (proj2 (proj1 (cloudsync_without_description_raises
      (answering (λ _, PNone)) undescribed_sensor (PInt 3) () ()
      PNone _ _ _) _)).
    + reflexivity.
    + reflexivity.
    + reflexivity.
    + left. reflexivity.
Defined.

(** The mutating branch in full: what the method ends with is decided
    by whether the call answers, not by what it answers. *)
Lemma run_mutation_resp {W : Type} (env : world W) (self : sensor)
    (i : pyval) (method : string) (v : pyval) (w' w'' : W) :
  _data self !! "id" = Some i →
  remote env method (PList [i]) w' = (Resp v, w'') →
  run env (id ← subscript self "id";
           api_query method (PList [id]);; mret ()) w'
  = Result [Called method (PList [i])] (Returned ()) w''.
Proof.
  intros Hid Hm. rewrite (run_subscript_some _ _ _ _ _ _ Hid).
  by rewrite (run_query_resp _ _ _ _ _ _ _ Hm).
Qed.

Lemma run_mutation_fault {W : Type} (env : world W) (self : sensor)
    (i : pyval) (method : string) (e : exn) (w' w'' : W) :
  _data self !! "id" = Some i →
  remote env method (PList [i]) w' = (Fault e, w'') →
  run env (id ← subscript self "id";
           api_query method (PList [id]);; mret ()) w'
  = Result [Called method (PList [i])] (Raised e) w''.
Proof.
  intros Hid Hm. rewrite (run_subscript_some _ _ _ _ _ _ Hid).
  by rewrite (run_query_fault _ _ _ _ _ _ _ Hm).
Qed.

(** X11. The reply of the mutating call is not looked at and its
    failure is not caught.  When [start] reaches [cloudsync.sync] (or
    [stop] reaches [cloudsync.abort]), the method returns normally for
    every value the call hands back, error mappings included, and ends
    with the client's exception when the call raises; in neither case is
    anything logged. *)
Theorem cloudsync_mutation_reply_ignored {W : Type} (env : world W)
    (self : sensor) (i : pyval) (w w' w'' : W)
    (rec : gmap string pyval) (rest : list pyval) :
  _data self !! "id" = Some i →
  remote env "cloudsync.query" (TrueNASClousyncSensor.id_filter i) w
    = (Resp (PList (PDict rec :: rest)), w') →
  is_Some (rec !! "job") →
  let state := TrueNASClousyncSensor.state_of (PDict rec) in
  let lookup_call :=
    Called "cloudsync.query" (TrueNASClousyncSensor.id_filter i) in
  (state ≠ PStr "WAITING" ∧ state ≠ PStr "RUNNING" →
     (∀ v, remote env "cloudsync.sync" (PList [i]) w' = (Resp v, w'') →
        run env (TrueNASClousyncSensor.start self) w
        = Result [lookup_call; Called "cloudsync.sync" (PList [i])]
            (Returned ()) w'') ∧
     (∀ e, remote env "cloudsync.sync" (PList [i]) w' = (Fault e, w'') →
        run env (TrueNASClousyncSensor.start self) w
        = Result [lookup_call; Called "cloudsync.sync" (PList [i])]
            (Raised e) w'')) ∧
  (state = PStr "WAITING" ∨ state = PStr "RUNNING" →
     (∀ v, remote env "cloudsync.abort" (PList [i]) w' = (Resp v, w'') →
        run env (TrueNASClousyncSensor.stop self) w
        = Result [lookup_call; Called "cloudsync.abort" (PList [i])]
            (Returned ()) w'') ∧
     (∀ e, remote env "cloudsync.abort" (PList [i]) w' = (Fault e, w'') →
        run env (TrueNASClousyncSensor.stop self) w
        = Result [lookup_call; Called "cloudsync.abort" (PList [i])]
            (Raised e) w'')).
Proof.
  intros Hid Hq Hjob state lookup_call.
  rewrite (start_after_lookup env self i w w' _ Hid Hq).
  rewrite (stop_after_lookup env self i w w' _ Hid Hq).
  destruct (wellformed_first_job rec rest Hjob) as [-> ->].
  split; intros Hstate; unfold state in Hstate.
  - apply active_false_iff in Hstate. rewrite Hstate. split.
    + intros v Hm. by rewrite (run_mutation_resp env self i _ v w' w'' Hid Hm).
    + intros e Hm. by rewrite (run_mutation_fault env self i _ e w' w'' Hid Hm).
  - apply active_iff in Hstate. rewrite Hstate. cbn [negb]. split.
    + intros v Hm. by rewrite (run_mutation_resp env self i _ v w' w'' Hid Hm).
    + intros e Hm. by rewrite (run_mutation_fault env self i _ e w' w'' Hid Hm).
Qed.

Lemma cloudsync_mutation_reply_ignored_witness :
  run tracking_job (TrueNASClousyncSensor.start cloudsync_sensor) false
  = Result [Called "cloudsync.query" (TrueNASClousyncSensor.id_filter (PInt 3));
            Called "cloudsync.sync" (PList [PInt 3])] (Returned ()) true
  ∧ run (responding (λ method,
           if String.eqb method "cloudsync.query"
           then Resp (job_in_state "WAITING") else Fault (ApiFault "timeout")))
      (TrueNASClousyncSensor.stop cloudsync_sensor) ()
  = Result [Called "cloudsync.query" (TrueNASClousyncSensor.id_filter (PInt 3));
            Called "cloudsync.abort" (PList [PInt 3])]
      (Raised (ApiFault "timeout")) ().
Proof.
  split.
  - refine (proj1 (proj1 (cloudsync_mutation_reply_ignored
      tracking_job cloudsync_sensor (PInt 3) false false true _ [] _ _ _) _)
      (PInt 7) _).
    + reflexivity.
    + reflexivity.
    + eexists. reflexivity.
    + split; discriminate.
    + reflexivity.
  - refine (proj2 (proj2 (cloudsync_mutation_reply_ignored
      (responding (λ method,
         if String.eqb method "cloudsync.query"
         then Resp (job_in_state "WAITING") else Fault (ApiFault "timeout")))
      cloudsync_sensor (PInt 3) () () () _ [] _ _ _) _)
      (ApiFault "timeout") _).
    + reflexivity.
    + reflexivity.
    + eexists. reflexivity.
    + left. reflexivity.
    + reflexivity.
Defined.



(** [start] on a job that is not active, when [cloudsync.sync] answers. *)
Lemma start_run_idle_resp {W : Type} (env : world W) (self : sensor)
    (i v : pyval) (w w' w'' : W) (rec : gmap string pyval) (rest : list pyval) :
  _data self !! "id" = Some i →
  remote env "cloudsync.query" (TrueNASClousyncSensor.id_filter i) w
    = (Resp (PList (PDict rec :: rest)), w') →
  is_Some (rec !! "job") →
  TrueNASClousyncSensor.active (TrueNASClousyncSensor.state_of (PDict rec)) = false →
  remote env "cloudsync.sync" (PList [i]) w' = (Resp v, w'') →
  run env (TrueNASClousyncSensor.start self) w
  = Result [Called "cloudsync.query" (TrueNASClousyncSensor.id_filter i);
            Called "cloudsync.sync" (PList [i])] (Returned ()) w''.
Proof.
  intros Hid Hq Hjob Hidle Hm.
  rewrite (start_after_lookup env self i w w' _ Hid Hq).
  destruct (wellformed_first_job rec rest Hjob) as [-> ->]. rewrite Hidle.
  by rewrite (run_mutation_resp env self i _ v w' w'' Hid Hm).
Qed.

(** X13. Only the first record of the lookup reply is read: two
    replies with the same first element make [start], and likewise
    [stop], run the same way, whatever else the lists hold. *)
Theorem cloudsync_reads_first_record_only {W : Type} (env : world W)
    (self : sensor) (i j : pyval) (rest1 rest2 : list pyval) (w1 w2 w' : W) :
  _data self !! "id" = Some i →
  remote env "cloudsync.query" (TrueNASClousyncSensor.id_filter i) w1
    = (Resp (PList (j :: rest1)), w') →
  remote env "cloudsync.query" (TrueNASClousyncSensor.id_filter i) w2
    = (Resp (PList (j :: rest2)), w') →
  run env (TrueNASClousyncSensor.start self) w1
    = run env (TrueNASClousyncSensor.start self) w2 ∧
  run env (TrueNASClousyncSensor.stop self) w1
    = run env (TrueNASClousyncSensor.stop self) w2.
Proof.
  intros Hid Hq1 Hq2.
  rewrite (start_after_lookup env self i w1 w' _ Hid Hq1).
  rewrite (start_after_lookup env self i w2 w' _ Hid Hq2).
  rewrite (stop_after_lookup env self i w1 w' _ Hid Hq1).
  by rewrite (stop_after_lookup env self i w2 w' _ Hid Hq2).
Qed.

Lemma cloudsync_reads_first_record_only_witness :
  run (World (λ (method : string) (_ : pyval) (crowded : bool),
                (Resp (PList (PDict (<["job" := PNone]> ∅)
                              :: if crowded then [PInt 1; PNone] else [])),
                 false))
             (λ crowded : bool, (sample_instant, crowded)))
      (TrueNASClousyncSensor.start cloudsync_sensor) true
  = run (World (λ (method : string) (_ : pyval) (crowded : bool),
                (Resp (PList (PDict (<["job" := PNone]> ∅)
                              :: if crowded then [PInt 1; PNone] else [])),
                 false))
             (λ crowded : bool, (sample_instant, crowded)))
      (TrueNASClousyncSensor.start cloudsync_sensor) false.
Proof.
  refine (proj1 (cloudsync_reads_first_record_only _ cloudsync_sensor
    (PInt 3) (PDict (<["job" := PNone]> ∅)) [PInt 1; PNone] [] true false false
    _ _ _)).
  - reflexivity.
  - reflexivity.
  - reflexivity.
Defined.

(** X14. The guard of [start] makes a repeated start harmless once the
    remote side reports the job as taken up.  If the first invocation
    finds the job not active and [cloudsync.sync] answers, and the next
    lookup shows the job as ["WAITING"] or ["RUNNING"], then two
    successive invocations issue [cloudsync.sync] once: the second only
    logs the already-running warning. *)
Theorem start_twice_syncs_once {W : Type} (env : world W) (self : sensor)
    (i d v : pyval) (w w1 w2 w3 : W)
    (rec rec' : gmap string pyval) (rest rest' : list pyval) :
  _data self !! "id" = Some i →
  _data self !! "description" = Some d →
  remote env "cloudsync.query" (TrueNASClousyncSensor.id_filter i) w
    = (Resp (PList (PDict rec :: rest)), w1) →
  is_Some (rec !! "job") →
  TrueNASClousyncSensor.state_of (PDict rec) ≠ PStr "WAITING" ∧
  TrueNASClousyncSensor.state_of (PDict rec) ≠ PStr "RUNNING" →
  remote env "cloudsync.sync" (PList [i]) w1 = (Resp v, w2) →
  remote env "cloudsync.query" (TrueNASClousyncSensor.id_filter i) w2
    = (Resp (PList (PDict rec' :: rest')), w3) →
  is_Some (rec' !! "job") →
  TrueNASClousyncSensor.state_of (PDict rec') = PStr "WAITING" ∨
  TrueNASClousyncSensor.state_of (PDict rec') = PStr "RUNNING" →
  invocations env (TrueNASClousyncSensor.start self) 2 w
  = [Result [Called "cloudsync.query" (TrueNASClousyncSensor.id_filter i);
             Called "cloudsync.sync" (PList [i])] (Returned ()) w2;
     Result [Called "cloudsync.query" (TrueNASClousyncSensor.id_filter i);
             Logged WARNING "Clousync job %s (%s) is already running" [d; i]]
       (Returned ()) w3].
Proof.
  intros Hid Hd Hq Hjob Hidle Hsync Hq' Hjob' Hact.
  apply active_false_iff in Hidle. apply active_iff in Hact.
  cbn [invocations].
  rewrite (start_run_idle_resp env self i v w w1 w2 rec rest Hid Hq Hjob Hidle Hsync).
  cbn [final]. f_equal. f_equal.
  destruct (wellformed_first_job rec' rest' Hjob') as [Hfirst Hinv].
  apply (start_run_active env self i d w2 w3 _ Hid Hd Hq'); by rewrite Hfirst.
Qed.

Lemma start_twice_syncs_once_witness :
  invocations tracking_job (TrueNASClousyncSensor.start cloudsync_sensor) 2 false
  = [Result [Called "cloudsync.query" (TrueNASClousyncSensor.id_filter (PInt 3));
             Called "cloudsync.sync" (PList [PInt 3])] (Returned ()) true;
     Result [Called "cloudsync.query" (TrueNASClousyncSensor.id_filter (PInt 3));
             Logged WARNING "Clousync job %s (%s) is already running"
               [PStr "backup"; PInt 3]]
       (Returned ()) true].
Proof.
  refine (start_twice_syncs_once tracking_job cloudsync_sensor
    (PInt 3) (PStr "backup") (PInt 7) false false true true
    _ _ [] [] _ _ _ _ _ _ _ _ _).
  - reflexivity.
  - reflexivity.
  - reflexivity.
  - eexists. reflexivity.
  - split; discriminate.
  - reflexivity.
  - reflexivity.
  - eexists. reflexivity.
  - right. reflexivity.
Defined.

(** X15. [start] and [stop] compose into a round trip.  Under the same
    assumptions on the remote side, [start] followed by [stop] issues the
    lookup, [cloudsync.sync], a fresh lookup and [cloudsync.abort], in
    this order, with the job identifier each time, and logs nothing. *)
Theorem start_then_stop_aborts {W : Type} (env : world W) (self : sensor)
    (i v : pyval) (w w1 w2 w3 : W)
    (rec rec' : gmap string pyval) (rest rest' : list pyval) :
  _data self !! "id" = Some i →
  remote env "cloudsync.query" (TrueNASClousyncSensor.id_filter i) w
    = (Resp (PList (PDict rec :: rest)), w1) →
  is_Some (rec !! "job") →
  TrueNASClousyncSensor.state_of (PDict rec) ≠ PStr "WAITING" ∧
  TrueNASClousyncSensor.state_of (PDict rec) ≠ PStr "RUNNING" →
  remote env "cloudsync.sync" (PList [i]) w1 = (Resp v, w2) →
  remote env "cloudsync.query" (TrueNASClousyncSensor.id_filter i) w2
    = (Resp (PList (PDict rec' :: rest')), w3) →
  is_Some (rec' !! "job") →
  TrueNASClousyncSensor.state_of (PDict rec') = PStr "WAITING" ∨
  TrueNASClousyncSensor.state_of (PDict rec') = PStr "RUNNING" →
  trace (run env (and_then (TrueNASClousyncSensor.start self)
                           (TrueNASClousyncSensor.stop self)) w)
  = [Called "cloudsync.query" (TrueNASClousyncSensor.id_filter i);
     Called "cloudsync.sync" (PList [i]);
     Called "cloudsync.query" (TrueNASClousyncSensor.id_filter i);
     Called "cloudsync.abort" (PList [i])].
Proof.
  intros Hid Hq Hjob Hidle Hsync Hq' Hjob' Hact.
  apply active_false_iff in Hidle. apply active_iff in Hact.
  unfold and_then. rewrite run_bind.
  rewrite (start_run_idle_resp env self i v w w1 w2 rec rest Hid Hq Hjob Hidle Hsync).
  cbn [outcome_of final trace].
  destruct (wellformed_first_job rec' rest' Hjob') as [Hfirst Hinv].
  rewrite (stop_trace_active env self i w2 w3 _ Hid Hq'); [done|..];
    by rewrite Hfirst.
Qed.

Lemma start_then_stop_aborts_witness :
  trace (run tracking_job
           (and_then (TrueNASClousyncSensor.start cloudsync_sensor)
                     (TrueNASClousyncSensor.stop cloudsync_sensor)) false)
  = [Called "cloudsync.query" (TrueNASClousyncSensor.id_filter (PInt 3));
     Called "cloudsync.sync" (PList [PInt 3]);
     Called "cloudsync.query" (TrueNASClousyncSensor.id_filter (PInt 3));
     Called "cloudsync.abort" (PList [PInt 3])].
Proof.
  refine (start_then_stop_aborts tracking_job cloudsync_sensor
    (PInt 3) (PInt 7) false false true true _ _ [] [] _ _ _ _ _ _ _ _).
  - reflexivity.
  - reflexivity.
  - eexists. reflexivity.
  - split; discriminate.
  - reflexivity.
  - reflexivity.
  - eexists. reflexivity.
  - right. reflexivity.
Defined.

(** X16. In no circumstance does an invocation of [start] or [stop] both
    log and mutate, or do either twice: whatever the record and the
    remote side, it logs at most one message or issues at most one
    mutating call, never both, and never more than two remote calls in
    all. *)
Theorem cloudsync_logs_or_mutates {W : Type} (env : world W)
    (self : sensor) (w : W) :
  let quiet (tr : list event) :=
    (length (log_calls tr) + length (mutating_calls tr) ≤ 1)%nat ∧
    (length (calls tr) ≤ 2)%nat in
  quiet (trace (run env (TrueNASClousyncSensor.start self) w)) ∧
  quiet (trace (run env (TrueNASClousyncSensor.stop self) w)).
Proof.
  intros quiet. unfold quiet.
  destruct (_data self !! "id") as [i|] eqn:Hid.
  - destruct (remote env "cloudsync.query" (TrueNASClousyncSensor.id_filter i) w)
      as [[jobs|e] w'] eqn:Hq.
    + rewrite (start_after_lookup env self i w w' jobs Hid Hq).
      rewrite (stop_after_lookup env self i w w' jobs Hid Hq).
      unfold after. cbn [trace].
      assert (∀ lvl msg,
        ∃ tr, trace (run env (description ← subscript self "description";
                              id ← subscript self "id";
                              log lvl msg [description; id]) w') = tr ∧
              (tr = [] ∨ ∃ d, tr = [Logged lvl msg [d; i]])) as Hlog.
      { intros lvl msg. eexists. split; [done|].
        destruct (_data self !! "description") as [d|] eqn:Hd.
        - rewrite (run_log_branch env self i w' Hid d _ _ Hd). eauto.
        - rewrite (run_log_branch_no_description env self w' _ _ Hd). eauto. }
      destruct (TrueNASClousyncSensor.invalid _).
      * destruct (Hlog ERROR "Clousync job %s (%s) invalid")
          as (tr & -> & [->|[d ->]]); simpl; lia.
      * destruct (TrueNASClousyncSensor.active _); cbn [negb];
          rewrite (run_mutation_branch env self i w' Hid).
        -- destruct (Hlog WARNING "Clousync job %s (%s) is already running")
             as (tr & -> & [->|[d ->]]); simpl; lia.
        -- destruct (Hlog WARNING "Clousync job %s (%s) is not running")
             as (tr & -> & [->|[d ->]]); simpl; lia.
    + unfold TrueNASClousyncSensor.start, TrueNASClousyncSensor.stop.
      rewrite !(run_subscript_some _ _ _ _ _ _ Hid).
      rewrite !(run_query_fault _ _ _ _ _ _ _ Hq). simpl. lia.
  - unfold TrueNASClousyncSensor.start, TrueNASClousyncSensor.stop.
    rewrite !(run_subscript_none _ _ _ _ _ Hid). simpl. lia.
Qed.

(** X17. A job sub-record without a ["state"] entry, or with a state
    that is not a string, counts as not active: [start] goes on to
    [cloudsync.sync] and [stop] logs the not-running warning and
    returns. *)
Theorem job_without_state_is_idle {W : Type} (env : world W) (self : sensor)
    (i d : pyval) (w w' : W)
    (rec job : gmap string pyval) (rest : list pyval) :
  _data self !! "id" = Some i →
  _data self !! "description" = Some d →
  remote env "cloudsync.query" (TrueNASClousyncSensor.id_filter i) w
    = (Resp (PList (PDict rec :: rest)), w') →
  rec !! "job" = Some (PDict job) →
  job !! "state" = None ∨
    (∃ v, job !! "state" = Some v ∧ ∀ s, v ≠ PStr s) →
  trace (run env (TrueNASClousyncSensor.start self) w)
    = [Called "cloudsync.query" (TrueNASClousyncSensor.id_filter i);
       Called "cloudsync.sync" (PList [i])] ∧
  run env (TrueNASClousyncSensor.stop self) w
    = Result [Called "cloudsync.query" (TrueNASClousyncSensor.id_filter i);
              Logged WARNING "Clousync job %s (%s) is not running" [d; i]]
        (Returned ()) w'.
Proof.
  intros Hid Hd Hq Hjob Hstate.
  destruct (wellformed_first_job rec rest (mk_is_Some _ _ Hjob)) as [Hfirst Hinv].
  assert (TrueNASClousyncSensor.active
            (TrueNASClousyncSensor.state_of (PDict rec)) = false) as Hidle.
  { rewrite (state_of_job rec job Hjob). apply active_false_iff.
    destruct Hstate as [->|(v & -> & Hv)]; simpl; [done|].
    split; apply Hv. }
  split.
  - apply (start_trace_idle env self i w w' _ Hid Hq); by rewrite Hfirst.
  - apply (stop_run_idle env self i d w w' _ Hid Hd Hq); by rewrite Hfirst.
Qed.

Lemma job_without_state_is_idle_witness :
  trace (run (answering (λ _,
           PList [PDict (<["job" := PDict (<["progress" := PInt 40]> ∅)]> ∅)]))
         (TrueNASClousyncSensor.start cloudsync_sensor) ())
    = [Called "cloudsync.query" (TrueNASClousyncSensor.id_filter (PInt 3));
       Called "cloudsync.sync" (PList [PInt 3])] ∧
  run (answering (λ _,
         PList [PDict (<["job" := PDict (<["progress" := PInt 40]> ∅)]> ∅)]))
      (TrueNASClousyncSensor.stop cloudsync_sensor) ()
    = Result [Called "cloudsync.query" (TrueNASClousyncSensor.id_filter (PInt 3));
              Logged WARNING "Clousync job %s (%s) is not running"
                [PStr "backup"; PInt 3]]
        (Returned ()) ().
Proof.
  refine (job_without_state_is_idle
    (answering (λ _,
       PList [PDict (<["job" := PDict (<["progress" := PInt 40]> ∅)]> ∅)]))
    cloudsync_sensor (PInt 3) (PStr "backup") () ()
    _ (<["progress" := PInt 40]> ∅) [] _ _ _ _ _).
  - reflexivity.
  - reflexivity.
  - reflexivity.
  - reflexivity.
  - left. reflexivity.
Defined.

(** [stop] on an active job, when [cloudsync.abort] answers. *)
Lemma stop_run_active_resp {W : Type} (env : world W) (self : sensor)
    (i v : pyval) (w w' w'' : W) (rec : gmap string pyval) (rest : list pyval) :
  _data self !! "id" = Some i →
  remote env "cloudsync.query" (TrueNASClousyncSensor.id_filter i) w
    = (Resp (PList (PDict rec :: rest)), w') →
  is_Some (rec !! "job") →
  TrueNASClousyncSensor.active (TrueNASClousyncSensor.state_of (PDict rec)) = true →
  remote env "cloudsync.abort" (PList [i]) w' = (Resp v, w'') →
  run env (TrueNASClousyncSensor.stop self) w
  = Result [Called "cloudsync.query" (TrueNASClousyncSensor.id_filter i);
            Called "cloudsync.abort" (PList [i])] (Returned ()) w''.
Proof.
  intros Hid Hq Hjob Hact Hm.
  rewrite (stop_after_lookup env self i w w' _ Hid Hq).
  destruct (wellformed_first_job rec rest Hjob) as [-> ->]. rewrite Hact.
  cbn [negb]. by rewrite (run_mutation_resp env self i _ v w' w'' Hid Hm).
Qed.

(** X18. The guard of [stop] makes a repeated stop harmless once the
    remote side reports the job as no longer active.  If the first
    invocation finds the job active and [cloudsync.abort] answers, and
    the next lookup shows a state other than ["WAITING"] and
    ["RUNNING"], then two successive invocations issue [cloudsync.abort]
    once: the second only logs the not-running warning. *)
Theorem stop_twice_aborts_once {W : Type} (env : world W) (self : sensor)
    (i d v : pyval) (w w1 w2 w3 : W)
    (rec rec' : gmap string pyval) (rest rest' : list pyval) :
  _data self !! "id" = Some i →
  _data self !! "description" = Some d →
  remote env "cloudsync.query" (TrueNASClousyncSensor.id_filter i) w
    = (Resp (PList (PDict rec :: rest)), w1) →
  is_Some (rec !! "job") →
  TrueNASClousyncSensor.state_of (PDict rec) = PStr "WAITING" ∨
  TrueNASClousyncSensor.state_of (PDict rec) = PStr "RUNNING" →
  remote env "cloudsync.abort" (PList [i]) w1 = (Resp v, w2) →
  remote env "cloudsync.query" (TrueNASClousyncSensor.id_filter i) w2
    = (Resp (PList (PDict rec' :: rest')), w3) →
  is_Some (rec' !! "job") →
  TrueNASClousyncSensor.state_of (PDict rec') ≠ PStr "WAITING" ∧
  TrueNASClousyncSensor.state_of (PDict rec') ≠ PStr "RUNNING" →
  invocations env (TrueNASClousyncSensor.stop self) 2 w
  = [Result [Called "cloudsync.query" (TrueNASClousyncSensor.id_filter i);
             Called "cloudsync.abort" (PList [i])] (Returned ()) w2;
     Result [Called "cloudsync.query" (TrueNASClousyncSensor.id_filter i);
             Logged WARNING "Clousync job %s (%s) is not running" [d; i]]
       (Returned ()) w3].
Proof.
  intros Hid Hd Hq Hjob Hact Habort Hq' Hjob' Hidle.
  apply active_iff in Hact. apply active_false_iff in Hidle.
  cbn [invocations].
  rewrite (stop_run_active_resp env self i v w w1 w2 rec rest Hid Hq Hjob Hact Habort).
  cbn [final]. f_equal. f_equal.
  destruct (wellformed_first_job rec' rest' Hjob') as [Hfirst Hinv].
  apply (stop_run_idle env self i d w2 w3 _ Hid Hd Hq'); by rewrite Hfirst.
Qed.

Lemma stop_twice_aborts_once_witness :
  invocations tracking_job (TrueNASClousyncSensor.stop cloudsync_sensor) 2 true
  = [Result [Called "cloudsync.query" (TrueNASClousyncSensor.id_filter (PInt 3));
             Called "cloudsync.abort" (PList [PInt 3])] (Returned ()) false;
     Result [Called "cloudsync.query" (TrueNASClousyncSensor.id_filter (PInt 3));
             Logged WARNING "Clousync job %s (%s) is not running"
               [PStr "backup"; PInt 3]]
       (Returned ()) false].
Proof.
  refine (stop_twice_aborts_once tracking_job cloudsync_sensor
    (PInt 3) (PStr "backup") (PBool true) true true false false
    _ _ [] [] _ _ _ _ _ _ _ _ _).
  - reflexivity.
  - reflexivity.
  - reflexivity.
  - eexists. reflexivity.
  - right. reflexivity.
  - reflexivity.
  - reflexivity.
  - eexists. reflexivity.
  - split; discriminate.
Defined.

(** The remote calls of one invocation, for a record with an ["id"]. *)
Lemma lookup_call_cases {W : Type} (env : world W) (self : sensor)
    (i : pyval) (w : W) :
  _data self !! "id" = Some i →
  let lookup_call := ("cloudsync.query", TrueNASClousyncSensor.id_filter i) in
  (calls (trace (run env (TrueNASClousyncSensor.start self) w)) = [lookup_call] ∨
   calls (trace (run env (TrueNASClousyncSensor.start self) w))
     = [lookup_call; ("cloudsync.sync", PList [i])]) ∧
  (calls (trace (run env (TrueNASClousyncSensor.stop self) w)) = [lookup_call] ∨
   calls (trace (run env (TrueNASClousyncSensor.stop self) w))
     = [lookup_call; ("cloudsync.abort", PList [i])]).
Proof.
  intros Hid lookup_call.
  destruct (remote env "cloudsync.query" (TrueNASClousyncSensor.id_filter i) w)
    as [[jobs|e] w'] eqn:Hq.
  - rewrite (start_after_lookup env self i w w' jobs Hid Hq).
    rewrite (stop_after_lookup env self i w w' jobs Hid Hq).
    unfold after. cbn [trace].
    assert (∀ lvl msg,
      calls (trace (run env (description ← subscript self "description";
                             id ← subscript self "id";
                             log lvl msg [description; id]) w')) = []) as Hlog.
    { intros lvl msg. destruct (_data self !! "description") as [d|] eqn:Hd.
      - by rewrite (run_log_branch env self i w' Hid d _ _ Hd).
      - by rewrite (run_log_branch_no_description env self w' _ _ Hd). }
    destruct (TrueNASClousyncSensor.invalid _).
    + cbn [calls omap list_omap]. rewrite Hlog. by split; left.
    + destruct (TrueNASClousyncSensor.active _); cbn [negb];
        rewrite (run_mutation_branch env self i w' Hid);
        cbn [calls omap list_omap]; rewrite ?Hlog; split;
        (by left) || (by right).
  - unfold TrueNASClousyncSensor.start, TrueNASClousyncSensor.stop.
    rewrite !(run_subscript_some _ _ _ _ _ _ Hid).
    rewrite !(run_query_fault _ _ _ _ _ _ _ Hq).
    by split; left.
Qed.

(** X19. Each method keeps to its own remote operations and to its own
    job: every call [start] issues is [cloudsync.query] or
    [cloudsync.sync], every call [stop] issues is [cloudsync.query] or
    [cloudsync.abort], and each carries the identifier of the sensor's
    record, in the lookup filter or as the single argument.  So [start]
    never aborts, [stop] never starts, and neither touches another job. *)
Theorem cloudsync_calls_confined {W : Type} (env : world W)
    (self : sensor) (w : W) :
  Forall (λ c, ∃ i, _data self !! "id" = Some i ∧
            (c = ("cloudsync.query", TrueNASClousyncSensor.id_filter i) ∨
             c = ("cloudsync.sync", PList [i])))
    (calls (trace (run env (TrueNASClousyncSensor.start self) w))) ∧
  Forall (λ c, ∃ i, _data self !! "id" = Some i ∧
            (c = ("cloudsync.query", TrueNASClousyncSensor.id_filter i) ∨
             c = ("cloudsync.abort", PList [i])))
    (calls (trace (run env (TrueNASClousyncSensor.stop self) w))).
Proof.
  destruct (_data self !! "id") as [i|] eqn:Hid.
  - destruct (lookup_call_cases env self i w Hid) as [Hstart Hstop].
    split.
    + destruct Hstart as [-> | ->]; repeat constructor; eauto.
    + destruct Hstop as [-> | ->]; repeat constructor; eauto.
  - unfold TrueNASClousyncSensor.start, TrueNASClousyncSensor.stop.
    rewrite !(run_subscript_none _ _ _ _ _ Hid). split; constructor.
Qed.
